(** * SHL Intelligent Recommendation System: the boundary layer (app.py)

    A shallow embedding of the Streamlit script [app.py]: the health probe,
    the call to the recommendation endpoint, the job-description scraper and
    [main], written in a small trace monad.  One run of the script reads the
    widget state, talks to the network and renders output; the run is a
    function from the state of the outside world to the list of events it
    produces.

    The recommendation engine itself (retriever, constraint filter) is
    served by a separate process that [app.py] only talks to over HTTP; the
    two components the properties below need are modelled from the
    specification in the module [Engine]. *)

From Stdlib Require Import String Ascii List ZArith NArith QArith Bool Lia.
From Stdlib Require Import DecimalString Qabs Permutation Sorted.
Import ListNotations.

Local Open Scope string_scope.
Local Open Scope list_scope.
Local Open Scope Z_scope.

(** ** Python primitives used by the script *)

Module Py.

(** [s.split(sep)] for a one-character separator: the segments between
    the occurrences of [sep]; never the empty list. *)
Fixpoint split (sep : ascii) (s : string) : list string :=
  match s with
  | EmptyString => [EmptyString]
  | String c s' =>
      if Ascii.eqb c sep then EmptyString :: split sep s'
      else match split sep s' with
           | seg :: rest => String c seg :: rest
           | [] => [String c EmptyString]
           end
  end.

(** [sep.join(l)] *)
Definition join (sep : string) (l : list string) : string :=
  String.concat sep l.

(** [str(n)] for an integer *)
Definition str_int (n : Z) : string :=
  NilZero.string_of_int (Z.to_int n).

(** [str(b)] for a boolean *)
Definition str_bool (b : bool) : string :=
  if b then "True" else "False".

(** [str(x)] for an integer-or-[None] *)
Definition str_opt_int (x : option Z) : string :=
  match x with
  | Some n => str_int n
  | None => "None"
  end.

(** truth value of a string: the empty string is false *)
Definition truthy (s : string) : bool :=
  negb (s =? "")%string.

(** truth value of a string-or-[None] *)
Definition truthy_opt (s : option string) : bool :=
  match s with
  | Some s => truthy s
  | None => false
  end.

(** truth value of an integer-or-[None]: [None] and [0] are false *)
Definition truthy_int (x : option Z) : bool :=
  match x with
  | Some n => negb (n =? 0)
  | None => false
  end.

(** [l[1:]] *)
Definition from1 {A} (l : list A) : list A := tl l.

(** [len(set(l))] on strings *)
Definition len_set (l : list string) : Z :=
  Z.of_nat (length (nodup string_dec l)).

(** [int(np.mean(l))] on a non-empty list of integers: the mean,
    truncated toward zero.  NumPy adds and divides in double precision:
    for integers that are not negative and whose sum is below 2^52 every
    partial sum is exact and the rounded quotient truncates to the exact
    one, which is what is written here; above that range the two can
    differ, and what is proved of the number itself is stated within
    it. *)
Definition int_mean (l : list Z) : Z :=
  Z.quot (fold_right Z.add 0 l) (Z.of_nat (length l)).

End Py.

(** ** Data delivered to the boundary layer *)

(** One element of ["recommended_assessments"] in the JSON reply. *)
Record assessment := {
  url : string;
  description : string;
  test_type : list string;
  duration : option Z;
  remote_support : bool;
  adaptive_support : bool
}.

(** What an HTTP call does: it completes with a status code and a body, or
    it raises an exception (carried as its text). *)
Inductive reply (B : Type) : Type :=
| Response (status_code : Z) (body : B)
| Raised (err : string).
Arguments Response {B} status_code body.
Arguments Raised {B} err.

(** [r.json()["recommended_assessments"]]: either the list, or an exception
    (body that is not JSON, or a missing key). *)
Inductive json_body : Type :=
| Unreadable (err : string)
| Assessments (recommended_assessments : list assessment).

(** What BeautifulSoup finds in a fetched page: the text of the first
    [div] of class job-description/description, if any, and the stripped
    texts of the [p] elements. *)
Record page := {
  job_div : option string;
  paragraphs : list string
}.

Inductive input_type := TextQuery | JobDescriptionURL.

(** The widget state read by one run of the script. *)
Record widgets := {
  radio : input_type;
  slider : option Z;       (* position chosen by the user, if touched *)
  text_area : string;
  text_input : string;
  button : bool
}.

(** The world one run executes in. [health n] answers the [n]-th probe of
    the health endpoint. *)
Record world := {
  OPENROUTER_API_KEY : option string;
  health : nat -> reply unit;
  popen : option string;   (* [Some e]: starting the process raises [e] *)
  recommend : string -> Z -> reply json_body;
  fetch : string -> reply page;
  ui : widgets
}.

(** ** Events of a run *)

Inductive markup := MainHeader | ResultsHeading | Rule | Footer.

Inductive metric_value := MInt (n : Z) | MText (s : string).

(** The interpolated fields of one result card (the fixed HTML around them
    is left out). *)
Record card := {
  number : Z;
  link : string;
  headline : string;
  badges : list string;
  duration_text : string;
  remote_text : string;
  adaptive_text : string;
  rationale : string
}.

(** What a run does, in order.  The page configuration, the style sheet,
    the sidebar heading, the widgets themselves and the spinners are fixed
    decoration and leave no event.  [StPlot] holds the series of test
    types that is handed to pandas: the table of counts and the bar chart
    are made from it by pandas and plotly, outside this model. *)
Inductive event :=
| EvGet (target : string) (timeout : option Z) (status : option Z)
| EvPost (target : string) (query : string) (max_results : Z)
         (status : option Z)
| EvPopen (script : string) (started : bool)
| EvSleep (seconds : Z)
| StInfo (msg : string)
| StError (msg : string)
| StWarning (msg : string)
| StMarkdown (m : markup)
| StTextArea (label value : string)
| StMetric (label : string) (value : metric_value)
| StCard (c : card)
| StPlot (test_types : list string).

Definition status_of {B} (r : reply B) : option Z :=
  match r with
  | Response code _ => Some code
  | Raised _ => None
  end.

(** ** The monad of the script: state, trace, [return] and [st.stop()] *)

Record state := {
  trace : list event;
  probes : nat            (* health probes made so far *)
}.

Definition initial : state := {| trace := []; probes := 0 |}.

Inductive outcome (A : Type) : Type :=
| Normal (a : A)
| Returned                (* the enclosing function executed [return] *)
| Stopped.                (* [st.stop()] ended the run *)
Arguments Normal {A} a.
Arguments Returned {A}.
Arguments Stopped {A}.

Definition M (A : Type) : Type := world -> state -> outcome A * state.

Definition ret {A} (a : A) : M A := fun _ s => (Normal a, s).

Definition bind {A B} (m : M A) (k : A -> M B) : M B :=
  fun w s =>
    match m w s with
    | (Normal a, s') => k a w s'
    | (Returned, s') => (Returned, s')
    | (Stopped, s') => (Stopped, s')
    end.

Notation "x <- c1 ;; c2" := (bind c1 (fun x => c2))
  (at level 61, c1 at next level, right associativity).
Notation "c1 ;; c2" := (bind c1 (fun _ => c2))
  (at level 61, right associativity).

Definition emit (e : event) : M unit :=
  fun _ s => (Normal tt, {| trace := trace s ++ [e]; probes := probes s |}).

Definition py_return {A} : M A := fun _ s => (Returned, s).

Definition st_stop {A} : M A := fun _ s => (Stopped, s).

(** A function call: a [return] inside the body ends the body only. *)
Definition call (body : M unit) : M unit :=
  fun w s =>
    match body w s with
    | (Returned, s') => (Normal tt, s')
    | r => r
    end.

Fixpoint for_each {A} (l : list A) (body : A -> M unit) : M unit :=
  match l with
  | [] => ret tt
  | a :: l' => body a ;; for_each l' body
  end.

(** Streamlit output calls *)
Definition st_info (msg : string) : M unit := emit (StInfo msg).
Definition st_error (msg : string) : M unit := emit (StError msg).
Definition st_warning (msg : string) : M unit := emit (StWarning msg).
Definition st_markdown (m : markup) : M unit := emit (StMarkdown m).
Definition st_metric (label : string) (v : metric_value) : M unit :=
  emit (StMetric label v).

(** Streamlit input widgets: each returns the value held by the widget. *)
Definition st_radio : M input_type := fun w s => (Normal (radio (ui w)), s).
Definition st_text_area : M string := fun w s => (Normal (text_area (ui w)), s).
Definition st_text_input : M string :=
  fun w s => (Normal (text_input (ui w)), s).
Definition st_button : M bool := fun w s => (Normal (button (ui w)), s).

(** [st.slider(label, lo, hi, value)]: the widget holds [value] until the
    user moves it, and only positions between [lo] and [hi] exist. *)
Definition st_slider (lo hi value : Z) : M Z :=
  fun w s =>
    (Normal match slider (ui w) with
            | None => value
            | Some v => Z.max lo (Z.min hi v)
            end, s).

(** Network calls *)
Definition API_ENDPOINT : string := "http://localhost:8000".

Definition requests_get_health : M (reply unit) :=
  fun w s =>
    let r := health w (probes s) in
    (Normal r,
     {| trace := trace s ++ [EvGet (API_ENDPOINT ++ "/health")%string None (status_of r)];
        probes := S (probes s) |}).

Definition requests_post (target query : string) (max_results : Z)
  : M (reply json_body) :=
  fun w s =>
    let r := recommend w query max_results in
    (Normal r,
     {| trace := trace s ++ [EvPost target query max_results (status_of r)];
        probes := probes s |}).

Definition requests_get (target : string) (timeout : Z) : M (reply page) :=
  fun w s =>
    let r := fetch w target in
    (Normal r,
     {| trace := trace s ++ [EvGet target (Some timeout) (status_of r)];
        probes := probes s |}).

(** ** API process management *)

(** Returns whether a process handle (rather than [None]) came back. *)
Definition start_api_server : M bool :=
  fun w =>
    match popen w with
    | None => (emit (EvPopen "api.py" true) ;; emit (EvSleep 3) ;; ret true) w
    | Some e =>
        (emit (EvPopen "api.py" false) ;;
         st_error ("Failed to start API: " ++ e)%string ;;
         ret false) w
    end.

Definition check_api_health : M bool :=
  r <- requests_get_health ;;
  match r with
  | Response status_code _ => ret (status_code =? 200)
  | Raised _ => ret false
  end.

(** ** API calls *)

(** [max_results] is an optional argument with default 10. *)
Definition get_recommendations_from_api (query : string)
    (max_results : option Z) : M (list assessment) :=
  let max_results := match max_results with Some m => m | None => 10 end in
  r <- requests_post (API_ENDPOINT ++ "/recommend")%string query max_results ;;
  match r with
  | Response status_code body =>
      if status_code =? 200 then
        match body with
        | Assessments l => ret l
        | Unreadable e => st_error ("API error: " ++ e)%string ;; ret []
        end
      else ret []
  | Raised e => st_error ("API error: " ++ e)%string ;; ret []
  end.

(** ** Job description scraper *)

Definition scrape_job_description (target : string) : M string :=
  r <- requests_get target 10 ;;
  match r with
  | Response _ soup =>
      match job_div soup with
      | Some content => ret content
      | None => ret (Py.join " " (paragraphs soup))
      end
  | Raised e => ret ("Error: " ++ e)%string
  end.

(** ** Main app *)

Definition no_results_warning : string :=
  "No assessments found. Try refining your query.".

(** [[r["duration"] for r in results if r["duration"]]] *)
Definition durations_of (results : list assessment) : list Z :=
  flat_map (fun r => match duration r with
                     | Some d => if Py.truthy_int (Some d) then [d] else []
                     | None => []
                     end) results.

(** [[t for r in results for t in r["test_type"]]] *)
Definition test_types_of (results : list assessment) : list string :=
  flat_map test_type results.

(** The third metric: [int(np.mean(durations)) if durations else "N/A"]. *)
Definition avg_duration_metric (durations : list Z) : metric_value :=
  match durations with
  | [] => MText "N/A"
  | _ :: _ => MInt (Py.int_mean durations)
  end.

(** The card rendered for the [i]-th result (counted from 0). *)
Definition render_card (i : Z) (a : assessment) : card :=
  {| number := i + 1;
     link := url a;
     headline := hd "" (Py.split "." (description a));
     badges := test_type a;
     duration_text := (Py.str_opt_int (duration a) ++ " minutes")%string;
     remote_text := Py.str_bool (remote_support a);
     adaptive_text := Py.str_bool (adaptive_support a);
     rationale := Py.join ". " (Py.from1 (Py.split "." (description a))) |}.

(** [enumerate(results)] counted from [i] *)
Fixpoint enumerate_from {A} (i : Z) (l : list A) : list (Z * A) :=
  match l with
  | [] => []
  | a :: l' => (i, a) :: enumerate_from (i + 1) l'
  end.

Definition main : M unit :=
  call (
    (* start / check API *)
    healthy <- check_api_health ;;
    (if negb healthy then
       st_info "Starting backend AI service..." ;;
       start_api_server ;;
       healthy' <- check_api_health ;;
       if negb healthy' then
         st_error "Failed to start API service" ;; st_stop
       else ret tt
     else ret tt) ;;
    (* header *)
    st_markdown MainHeader ;;
    (* sidebar controls *)
    input_mode <- st_radio ;;
    max_results <- st_slider 3 15 10 ;;
    (* input section *)
    qr <- match input_mode with
          | TextQuery =>
              query <- st_text_area ;;
              run <- st_button ;;
              ret (Some query, run)
          | JobDescriptionURL =>
              target <- st_text_input ;;
              run <- st_button ;;
              if run && Py.truthy target then
                query <- scrape_job_description target ;;
                emit (StTextArea "Extracted Job Description" query) ;;
                ret (Some query, run)
              else ret (None, run)
          end ;;
    let query : option string := fst qr in
    let run : bool := snd qr in
    (* recommendations *)
    (if run && Py.truthy_opt query then
       results <- get_recommendations_from_api
                    (match query with Some q => q | None => "" end)
                    (Some max_results) ;;
       match results with
       | [] => st_warning no_results_warning ;; py_return
       | _ :: _ =>
           let durations := durations_of results in
           let test_types := test_types_of results in
           st_metric "Recommendations" (MInt (Z.of_nat (length results))) ;;
           st_metric "Unique Test Types" (MInt (Py.len_set test_types)) ;;
           st_metric "Avg Duration (mins)" (avg_duration_metric durations) ;;
           st_markdown ResultsHeading ;;
           for_each (enumerate_from 0 results)
             (fun ia => emit (StCard (render_card (fst ia) (snd ia)))) ;;
           emit (StPlot test_types)
       end
     else ret tt) ;;
    (* footer *)
    st_markdown Rule ;;
    st_markdown Footer).

(** The script: the key check at import time, then [main]. *)
Definition app_py : M unit :=
  fun w =>
    match OPENROUTER_API_KEY w with
    | Some key =>
        if Py.truthy key then main w
        else (st_error "OPENROUTER_API_KEY not found in environment" ;;
              st_stop) w
    | None =>
        (st_error "OPENROUTER_API_KEY not found in environment" ;;
         st_stop) w
    end.

(** One run of the script from a fresh state. *)
Definition run_app (w : world) : outcome unit * state := app_py w initial.

Definition events (w : world) : list event := trace (snd (run_app w)).

(** The output a user sees: the Streamlit calls of a run, without the
    network and process events. *)
Definition is_output (e : event) : bool :=
  match e with
  | EvGet _ _ _ | EvPost _ _ _ _ | EvPopen _ _ | EvSleep _ => false
  | _ => true
  end.

Definition rendered (w : world) : list event :=
  List.filter is_output (events w).

(** The world [w] with every call of the recommendation endpoint answered
    by [r]. *)
Definition with_reply (w : world) (r : reply json_body) : world :=
  {| OPENROUTER_API_KEY := OPENROUTER_API_KEY w;
     health := health w;
     popen := popen w;
     recommend := fun _ _ => r;
     fetch := fetch w;
     ui := ui w |}.

Definition health_url : string := (API_ENDPOINT ++ "/health")%string.
Definition recommend_url : string := (API_ENDPOINT ++ "/recommend")%string.

Definition is_recommend_request (e : event) : bool :=
  match e with
  | EvPost target _ _ _ => (target =? recommend_url)%string
  | _ => false
  end.

(** A health probe that came back with status 200. *)
Definition is_probe_success (e : event) : bool :=
  match e with
  | EvGet target None (Some code) =>
      (target =? health_url)%string && (code =? 200)
  | _ => false
  end.

(** ** The presentation split of a description *)

Definition headline_of (d : string) : string := hd "" (Py.split "." d).

Definition rationale_of (d : string) : string :=
  Py.join ". " (Py.from1 (Py.split "." d)).

(** Whether a string contains the character [c]. *)
Fixpoint contains (c : ascii) (s : string) : bool :=
  match s with
  | EmptyString => false
  | String c' s' => Ascii.eqb c' c || contains c s'
  end.

(** Removes the one space that follows a ['.'], for every ['.']. *)
Fixpoint unspace (s : string) : string :=
  match s with
  | EmptyString => EmptyString
  | String c s' =>
      if Ascii.eqb c "." then
        String c match s' with
                 | String " " s'' => unspace s''
                 | _ => unspace s'
                 end
      else String c (unspace s')
  end.

(** The description rebuilt from what a card shows. *)
Definition recombine (dotted : bool) (head rest : string) : string :=
  if dotted then (head ++ "." ++ unspace rest)%string else head.

(** ** The engine behind the endpoint *)

Module Engine.

(** Modelled from the spec: the AssessmentRecord of the data model (the
    engine's catalog code is not part of app.py). *)
Record AssessmentRecord := {
  id : string;
  url : string;
  name : string;
  description : string;
  test_type : list string;
  duration_minutes : option N;
  remote_support : bool;
  adaptive_support : bool;
  embedding : list Q
}.

(** Modelled from the spec: the constraints derived from a query, an
    optional duration ceiling and the required test types (the constraint
    filter is not part of app.py). *)
Record constraints := {
  duration_ceiling : option N;
  required_test_types : list string
}.

(** Modelled from the spec: the duration policy of the Constraint Filter,
    which is not part of app.py. A record passes unless its duration is
    present and exceeds the ceiling. *)
Definition within_ceiling (c : constraints) (r : AssessmentRecord) : bool :=
  match duration_ceiling c, duration_minutes r with
  | Some ceiling, Some d => (d <=? ceiling)%N
  | _, _ => true
  end.

(** Modelled from the spec: the test-type policy of the Constraint Filter,
    which is not part of app.py. A record passes when its test types
    intersect the required ones; an empty requirement is a no-op. *)
Definition has_required_type (c : constraints) (r : AssessmentRecord) : bool :=
  match required_test_types c with
  | [] => true
  | _ :: _ =>
      existsb (fun t => existsb (String.eqb t) (required_test_types c))
              (test_type r)
  end.

(** Modelled from the spec: [filter(ranked_candidates, constraints, limit)]
    of the Constraint Filter, which is not part of app.py. It keeps the
    order of the candidates and truncates to [limit]. *)
Definition filter (ranked_candidates : list (AssessmentRecord * Q))
    (c : constraints) (limit : nat) : list (AssessmentRecord * Q) :=
  firstn limit
    (List.filter (fun rs => within_ceiling c (fst rs)
                            && has_required_type c (fst rs))
                 ranked_candidates).

Section Retriever.

(** The similarity of a query vector and an embedding.  The service
    computes the cosine in floating point; ranking is stated for any
    scoring function. *)
Variable similarity : list Q -> list Q -> Q.

(** The small tolerance within which two scores count as equal (the
    specification gives 1e-9 as an example). *)
Variable tolerance : Q.

(** Modelled from the spec: the scoring step of the Retriever, which is
    not part of app.py: every candidate paired with its similarity. *)
Definition scored (query_vector : list Q) (candidates : list AssessmentRecord)
  : list (AssessmentRecord * Q) :=
  map (fun r => (r, similarity query_vector (embedding r))) candidates.

(** Modelled from the spec: the ranking step of the Retriever, which is
    not part of app.py, with the tie rule of section 4.3. A candidate [x]
    that comes earlier in the catalog than the ranked ones is placed
    behind those that score higher than it by more than the tolerance, and
    before the first one that does not: a tie within the tolerance is
    broken by catalog order. *)
Fixpoint place (x : AssessmentRecord * Q) (l : list (AssessmentRecord * Q))
  : list (AssessmentRecord * Q) :=
  match l with
  | [] => [x]
  | y :: l' =>
      if Qle_bool (snd y) (snd x + tolerance) then x :: y :: l'
      else y :: place x l'
  end.

(** Modelled from the spec: a stable sort by descending score with ties
    within the tolerance (the Retriever is not part of app.py). *)
Definition rank (l : list (AssessmentRecord * Q))
  : list (AssessmentRecord * Q) :=
  fold_right place [] l.

(** Modelled from the spec: [retrieve(query_vector, candidates)] of the
    Retriever, which is not part of app.py: the candidates with their
    scores, ordered descending by score, ties in catalog order. *)
Definition retrieve (query_vector : list Q)
    (candidates : list AssessmentRecord) : list (AssessmentRecord * Q) :=
  rank (scored query_vector candidates).

End Retriever.

(** The inner product; on vectors of norm one it is their cosine. *)
Fixpoint dot (u v : list Q) : Q :=
  match u, v with
  | a :: u', b :: v' => (a * b + dot u' v')%Q
  | _, _ => 0%Q
  end.







End Engine.

(** Whether a probe reply counts as healthy, and whether a run gets past
    the key check and the health section. *)
Definition ok_reply (r : reply unit) : bool :=
  match r with
  | Response status_code _ => status_code =? 200
  | Raised _ => false
  end.

Definition key_present (w : world) : bool :=
  Py.truthy_opt (OPENROUTER_API_KEY w).

Definition reaches_inputs (w : world) : bool :=
  key_present w && (ok_reply (health w 0%nat) || ok_reply (health w 1%nat)).

(** A trace in which every recommendation request comes after a
    successful health probe ([healthy]: one was already seen). *)
Fixpoint gated (healthy : bool) (t : list event) : bool :=
  match t with
  | [] => true
  | e :: t' =>
      if is_recommend_request e then healthy && gated healthy t'
      else gated (healthy || is_probe_success e) t'
  end.

(** ** Sample catalog *)

Definition record_of (id : string) (minutes : option N) (types : list string)
    (embedding : list Q) : Engine.AssessmentRecord :=
  {| Engine.id := id;
     Engine.url := ("https://www.shl.com/" ++ id)%string;
     Engine.name := id;
     Engine.description := id;
     Engine.test_type := types;
     Engine.duration_minutes := minutes;
     Engine.remote_support := true;
     Engine.adaptive_support := false;
     Engine.embedding := embedding |}.

(** Candidates with durations None, 15, 45 and 60, ranked. *)
Definition ranked_sample : list (Engine.AssessmentRecord * Q) :=
  [ (record_of "a" None ["Ability"] [], 9 # 10);
    (record_of "b" (Some 15%N) ["Personality"] [], 8 # 10);
    (record_of "c" (Some 45%N) ["Ability"] [], 7 # 10);
    (record_of "d" (Some 60%N) ["Knowledge & Skills"] [], 6 # 10) ]%Q.

(** A duration ceiling and nothing else. *)
Definition ceiling_only (ceiling : N) : Engine.constraints :=
  {| Engine.duration_ceiling := Some ceiling;
     Engine.required_test_types := [] |}.

(** The record's duration is present and exceeds the ceiling of [c]. *)
Definition over_ceiling (c : Engine.constraints)
    (r : Engine.AssessmentRecord) : Prop :=
  exists ceiling d,
    Engine.duration_ceiling c = Some ceiling
    /\ Engine.duration_minutes r = Some d
    /\ (ceiling < d)%N.

(** The record has one of the required test types, or none is required. *)
Definition meets_types (c : Engine.constraints)
    (r : Engine.AssessmentRecord) : Prop :=
  Engine.required_test_types c = []
  \/ exists t, In t (Engine.test_type r)
               /\ In t (Engine.required_test_types c).

(** The candidates that pass both constraints, in ranked order. *)
Definition survivors (ranked : list (Engine.AssessmentRecord * Q))
    (c : Engine.constraints) : list (Engine.AssessmentRecord * Q) :=
  List.filter (fun rs => Engine.within_ceiling c (fst rs)
                         && Engine.has_required_type c (fst rs)) ranked.

(** A ceiling of 40 minutes and a required test type. *)
Definition ceiling_and_type : Engine.constraints :=
  {| Engine.duration_ceiling := Some 40%N;
     Engine.required_test_types := ["Personality"] |}.

(** Three records whose embeddings are unit vectors, at a shrinking angle
    to the query [unit_query]; the last is along it.  Their cosines are
    about 1 - 1.152e-9, 1 - 0.578e-9 and 1: each is within 1e-9 of the
    next, the first and the last are not. *)
Definition far_match : Engine.AssessmentRecord :=
  record_of "far" None ["Ability"]
            [15624999991 # 15625000009; 750000 # 15625000009]%Q.

Definition mid_match : Engine.AssessmentRecord :=
  record_of "mid" None ["Ability"]
            [999999999711 # 1000000000289; 34000000 # 1000000000289]%Q.

Definition exact_match : Engine.AssessmentRecord :=
  record_of "exact" None ["Ability"] [1; 0]%Q.

Definition unit_query : list Q := [1; 0]%Q.

Definition tolerance : Q := (1 # 1000000000)%Q.

(** Any POST. *)
Definition is_post (e : event) : bool :=
  match e with
  | EvPost _ _ _ _ => true
  | _ => false
  end.

(** Output that presents recommendations. *)
Definition shows_recommendation (e : event) : bool :=
  match e with
  | StMetric _ _ | StCard _ | StPlot _ | StMarkdown ResultsHeading => true
  | _ => false
  end.

(** ** Replies of the endpoint, by kind *)

Definition empty_success : reply json_body := Response 200 (Assessments []).

(** A reply with a status other than 200. *)
Definition refused (r : reply json_body) : bool :=
  match r with
  | Response status_code _ => negb (status_code =? 200)
  | Raised _ => false
  end.

(** The exception [get_recommendations_from_api] catches for a reply. *)
Definition raises (r : reply json_body) : option string :=
  match r with
  | Raised e => Some e
  | Response status_code (Unreadable e) =>
      if status_code =? 200 then Some e else None
  | Response _ (Assessments _) => None
  end.

(** A reply that is not a success. *)
Definition failure (r : reply json_body) : bool :=
  refused r || match raises r with Some _ => true | None => false end.

(** What a run shows for the reply [r] differs from what it shows for a
    success without matches. *)
Definition surfaced_distinctly (w : world) (r : reply json_body) : Prop :=
  rendered (with_reply w r) <> rendered (with_reply w empty_success).

(** The service answering that it has no catalog. *)
Definition catalog_unavailable : reply json_body :=
  Response 503 (Unreadable "CatalogUnavailableError").

(** A run that calls the endpoint. *)
Definition requests (w : world) : bool :=
  existsb is_recommend_request (events w).

(** ** Sample worlds *)

Definition java_test : assessment :=
  {| url := "https://www.shl.com/java";
     description := "Java 8 test. Measures core Java. Multiple choice.";
     test_type := ["Knowledge & Skills"];
     duration := Some 30;
     remote_support := true;
     adaptive_support := false |}.

Definition teamwork_test : assessment :=
  {| url := "https://www.shl.com/teamwork";
     description := "Teamwork questionnaire";
     test_type := ["Personality"; "Knowledge & Skills"];
     duration := None;
     remote_support := true;
     adaptive_support := true |}.

(** A healthy service, a typed query, the slider untouched. *)
Definition world_text : world :=
  {| OPENROUTER_API_KEY := Some "sk-test";
     health := fun _ => Response 200 tt;
     popen := None;
     recommend := fun _ _ =>
       Response 200 (Assessments [java_test; teamwork_test]);
     fetch := fun _ => Raised "unused";
     ui := {| radio := TextQuery;
              slider := None;
              text_area := "Java developers, under 40 minutes";
              text_input := "";
              button := true |} |}.

(** The service stays down. *)
Definition world_down : world :=
  {| OPENROUTER_API_KEY := Some "sk-test";
     health := fun _ => Raised "Connection refused";
     popen := None;
     recommend := recommend world_text;
     fetch := fetch world_text;
     ui := ui world_text |}.

(** A job posting whose fetch fails; the service comes up on the second
    probe. *)
Definition world_url : world :=
  {| OPENROUTER_API_KEY := Some "sk-test";
     health := fun n => match n with
                        | O => Raised "Connection refused"
                        | _ => Response 200 tt
                        end;
     popen := None;
     recommend := recommend world_text;
     fetch := fun _ => Raised "Read timed out";
     ui := {| radio := JobDescriptionURL;
              slider := Some 20;
              text_area := "";
              text_input := "https://jobs.example.com/42";
              button := true |} |}.

(** ** Summaries of the calls, used to describe a run *)

(** What [get_recommendations_from_api] returns for a reply. *)
Definition results_of (r : reply json_body) : list assessment :=
  match r with
  | Response status_code (Assessments l) =>
      if status_code =? 200 then l else []
  | _ => []
  end.

(** What [get_recommendations_from_api] shows for a reply. *)
Definition errors_of (r : reply json_body) : list event :=
  match r with
  | Response status_code (Unreadable e) =>
      if status_code =? 200 then [StError ("API error: " ++ e)%string] else []
  | Response _ (Assessments _) => []
  | Raised e => [StError ("API error: " ++ e)%string]
  end.

(** What [scrape_job_description] returns for a reply. *)
Definition scraped (r : reply page) : string :=
  match r with
  | Response _ soup =>
      match job_div soup with
      | Some content => content
      | None => Py.join " " (paragraphs soup)
      end
  | Raised e => ("Error: " ++ e)%string
  end.

(** The events of [start_api_server]. *)
Definition start_events (w : world) : list event :=
  match popen w with
  | None => [EvPopen "api.py" true; EvSleep 3]
  | Some e => [EvPopen "api.py" false;
               StError ("Failed to start API: " ++ e)%string]
  end.

(** The value of the slider. *)
Definition slider_value (w : world) : Z :=
  match slider (ui w) with
  | None => 10
  | Some v => Z.max 3 (Z.min 15 v)
  end.

(** ** The phases of a run, as lists of events *)

Definition key_error_events : list event :=
  [StError "OPENROUTER_API_KEY not found in environment"].

(** Whether one of the (at most two) probes of a run succeeded. *)
Definition healthy_after (w : world) : bool :=
  ok_reply (health w 0%nat) || ok_reply (health w 1%nat).

Definition probe_event (w : world) (n : nat) : event :=
  EvGet health_url None (status_of (health w n)).

Definition health_events (w : world) : list event :=
  probe_event w 0%nat ::
  if ok_reply (health w 0%nat) then []
  else StInfo "Starting backend AI service..." ::
       start_events w ++
       probe_event w 1%nat ::
       if ok_reply (health w 1%nat) then []
       else [StError "Failed to start API service"].

(** The query a run ends up with. *)
Definition query_of (w : world) : option string :=
  match radio (ui w) with
  | TextQuery => Some (text_area (ui w))
  | JobDescriptionURL =>
      if button (ui w) && Py.truthy (text_input (ui w))
      then Some (scraped (fetch w (text_input (ui w))))
      else None
  end.

Definition input_events (w : world) : list event :=
  match radio (ui w) with
  | TextQuery => []
  | JobDescriptionURL =>
      if button (ui w) && Py.truthy (text_input (ui w))
      then [EvGet (text_input (ui w)) (Some 10)
                  (status_of (fetch w (text_input (ui w))));
            StTextArea "Extracted Job Description"
                       (scraped (fetch w (text_input (ui w))))]
      else []
  end.

(** Whether a run that reaches the inputs calls the endpoint. *)
Definition asks (w : world) : bool :=
  button (ui w) && Py.truthy_opt (query_of w).

Definition query_text (w : world) : string :=
  match query_of w with Some q => q | None => "" end.

(** The reply a run that asks gets. *)
Definition answer (w : world) : reply json_body :=
  recommend w (query_text w) (slider_value w).

Definition cards_of (results : list assessment) : list event :=
  map (fun ia => StCard (render_card (fst ia) (snd ia)))
      (enumerate_from 0 results).

Definition result_events (results : list assessment) : list event :=
  [StMetric "Recommendations" (MInt (Z.of_nat (length results)));
   StMetric "Unique Test Types" (MInt (Py.len_set (test_types_of results)));
   StMetric "Avg Duration (mins)" (avg_duration_metric (durations_of results));
   StMarkdown ResultsHeading]
  ++ cards_of results
  ++ [StPlot (test_types_of results)].

Definition footer_events : list event := [StMarkdown Rule; StMarkdown Footer].

Definition recommendation_events (w : world) : list event :=
  if asks w then
    EvPost recommend_url (query_text w) (slider_value w)
           (status_of (answer w))
    :: errors_of (answer w)
    ++ match results_of (answer w) with
       | [] => [StWarning no_results_warning]
       | _ :: _ => result_events (results_of (answer w)) ++ footer_events
       end
  else footer_events.

(** ** Kinds of events, and counting them *)

(** A call of [check_api_health]: the GET of the health endpoint, made
    without a timeout. *)
Definition is_probe (e : event) : bool :=
  match e with
  | EvGet target None _ => (target =? health_url)%string
  | _ => false
  end.

(** The GET of [scrape_job_description], made with a timeout. *)
Definition is_fetch (e : event) : bool :=
  match e with
  | EvGet _ (Some _) _ => true
  | _ => false
  end.

Definition is_popen (e : event) : bool :=
  match e with
  | EvPopen _ _ => true
  | _ => false
  end.

Definition is_sleep (e : event) : bool :=
  match e with
  | EvSleep _ => true
  | _ => false
  end.

Definition count (p : event -> bool) (t : list event) : nat :=
  length (List.filter p t).

(** The cards of a trace, in order. *)
Definition cards_in (t : list event) : list card :=
  flat_map (fun e => match e with StCard c => [c] | _ => [] end) t.

(** The world [w] with every fetch of a page answered by [r]. *)
Definition with_page (w : world) (r : reply page) : world :=
  {| OPENROUTER_API_KEY := OPENROUTER_API_KEY w;
     health := health w;
     popen := popen w;
     recommend := recommend w;
     fetch := fun _ => r;
     ui := ui w |}.

(** The world [w] with another web behind the scraper and another content
    of the URL field. *)
Definition with_web (w : world) (f : string -> reply page) (field : string)
  : world :=
  {| OPENROUTER_API_KEY := OPENROUTER_API_KEY w;
     health := health w;
     popen := popen w;
     recommend := recommend w;
     fetch := f;
     ui := {| radio := radio (ui w);
              slider := slider (ui w);
              text_area := text_area (ui w);
              text_input := field;
              button := button (ui w) |} |}.

(** The world [w] with another content of the query field. *)
Definition with_text (w : world) (text : string) : world :=
  {| OPENROUTER_API_KEY := OPENROUTER_API_KEY w;
     health := health w;
     popen := popen w;
     recommend := recommend w;
     fetch := fetch w;
     ui := {| radio := radio (ui w);
              slider := slider (ui w);
              text_area := text;
              text_input := text_input (ui w);
              button := button (ui w) |} |}.

Definition is_footer (e : event) : bool :=
  match e with
  | StMarkdown Footer => true
  | _ => false
  end.

(** The warning shown for an empty result. *)
Definition is_refine_warning (e : event) : bool :=
  match e with
  | StWarning msg => (msg =? no_results_warning)%string
  | _ => false
  end.

(** ** More sample worlds *)

(** The process cannot be started, but the service answers the second
    probe. *)
Definition world_nostart : world :=
  {| OPENROUTER_API_KEY := Some "sk-test";
     health := health world_url;
     popen := Some "No such file or directory";
     recommend := recommend world_text;
     fetch := fetch world_text;
     ui := ui world_text |}.

(** The button not pressed. *)
Definition world_idle : world :=
  {| OPENROUTER_API_KEY := Some "sk-test";
     health := health world_text;
     popen := None;
     recommend := recommend world_text;
     fetch := fetch world_text;
     ui := {| radio := TextQuery;
              slider := None;
              text_area := "Java developers";
              text_input := "";
              button := false |} |}.

(** A job posting that is fetched with status 404 and holds two
    paragraphs. *)
Definition not_found_page : reply page :=
  Response 404 {| job_div := None;
                  paragraphs := ["Page not found"; "Try again"] |}.

Definition empty_page : reply page :=
  Response 200 {| job_div := None; paragraphs := [] |}.

Definition zero_test : assessment :=
  {| url := "https://www.shl.com/zero";
     description := "Untimed test.";
     test_type := [];
     duration := Some 0;
     remote_support := false;
     adaptive_support := false |}.

(** * Properties *)

(** ** The embedding on sample inputs *)

Example split_two_sentences :
  Py.split "." "Java 8 test. Measures core Java."
  = ["Java 8 test"; " Measures core Java"; ""].
Proof. reflexivity. Qed.

Example split_no_dot : Py.split "." "Teamwork questionnaire"
                       = ["Teamwork questionnaire"].
Proof. reflexivity. Qed.

Example card_of_java_test :
  render_card 0 java_test
  = {| number := 1;
       link := "https://www.shl.com/java";
       headline := "Java 8 test";
       badges := ["Knowledge & Skills"];
       duration_text := "30 minutes";
       remote_text := "True";
       adaptive_text := "False";
       rationale := " Measures core Java.  Multiple choice. " |}.
Proof. reflexivity. Qed.

Example run_world_down :
  run_app world_down
  = (Stopped,
     {| trace := [EvGet "http://localhost:8000/health" None None;
                  StInfo "Starting backend AI service...";
                  EvPopen "api.py" true;
                  EvSleep 3;
                  EvGet "http://localhost:8000/health" None None;
                  StError "Failed to start API service"];
        probes := 2 |}).
Proof. reflexivity. Qed.

Example run_world_url :
  events (with_reply world_url empty_success)
  = [EvGet "http://localhost:8000/health" None None;
     StInfo "Starting backend AI service...";
     EvPopen "api.py" true;
     EvSleep 3;
     EvGet "http://localhost:8000/health" None (Some 200);
     StMarkdown MainHeader;
     EvGet "https://jobs.example.com/42" (Some 10) None;
     StTextArea "Extracted Job Description" "Error: Read timed out";
     EvPost "http://localhost:8000/recommend" "Error: Read timed out" 15
            (Some 200);
     StWarning "No assessments found. Try refining your query."].
Proof. reflexivity. Qed.

Example metrics_world_text :
  List.filter (fun e => match e with StMetric _ _ => true | _ => false end)
              (events world_text)
  = [StMetric "Recommendations" (MInt 2);
     StMetric "Unique Test Types" (MInt 2);
     StMetric "Avg Duration (mins)" (MInt 30)].
Proof. reflexivity. Qed.

Example retrieve_sample :
  map (fun rs => Engine.id (fst rs))
      (Engine.retrieve Engine.dot tolerance unit_query
                       [far_match; mid_match; exact_match])
  = ["far"; "mid"; "exact"].
Proof. reflexivity. Qed.

Example retrieve_apart :
  map (fun rs => Engine.id (fst rs))
      (Engine.retrieve Engine.dot tolerance unit_query
                       [far_match; exact_match; mid_match])
  = ["exact"; "far"; "mid"].
Proof. reflexivity. Qed.

Example filter_sample :
  map (fun rs => Engine.id (fst rs))
      (Engine.filter ranked_sample (ceiling_only 40) 4)
  = ["a"; "b"].
Proof. reflexivity. Qed.

(** ** The trace monad *)

Lemma for_each_emit {A} (f : A -> event) (l : list A) (w : world) (s : state) :
  for_each l (fun a => emit (f a)) w s
  = (Normal tt, {| trace := trace s ++ map f l; probes := probes s |}).
Proof.
  revert s; induction l as [|a l IH]; intros s; simpl.
  - rewrite app_nil_r. destruct s; reflexivity.
  - unfold bind, emit at 1; simpl. rewrite IH; simpl.
    rewrite <- app_assoc. reflexivity.
Qed.

(** ** The health probe *)

(** C10: [check_api_health] always returns a boolean, and the boolean is
    [True] exactly when the GET of the health endpoint completed with
    status 200; any other status and any exception give [False]. *)
Theorem check_api_health_true_iff_200 (w : world) (s : state) :
  exists b : bool,
    fst (check_api_health w s) = Normal b
    /\ (b = true <-> exists body, health w (probes s) = Response 200 body)
    /\ (b = false <->
        (exists code body, health w (probes s) = Response code body
                           /\ code <> 200)
        \/ (exists e, health w (probes s) = Raised e)).
Proof.
  unfold check_api_health, bind, requests_get_health; simpl.
  destruct (health w (probes s)) as [code body | e] eqn:Hr; simpl.
  - exists (code =? 200); split; [reflexivity|]. split; split.
    + intros H; apply Z.eqb_eq in H; subst; eauto.
    + intros [body' H]; injection H as -> _; reflexivity.
    + intros H; apply Z.eqb_neq in H; left; eauto.
    + intros [(c & b' & H & Hne) | (e & H)]; [|discriminate].
      injection H as -> _. now apply Z.eqb_neq.
  - exists false; split; [reflexivity|]. split; split; try reflexivity.
    + discriminate.
    + intros [body H]; discriminate.
    + intros _; right; eauto.
Qed.

(** ** Runs of the script *)

Lemma check_api_health_run (w : world) (s : state) :
  check_api_health w s
  = (Normal (ok_reply (health w (probes s))),
     {| trace := trace s ++ [EvGet health_url None
                                   (status_of (health w (probes s)))];
        probes := S (probes s) |}).
Proof.
  unfold check_api_health, bind, requests_get_health.
  destruct (health w (probes s)); reflexivity.
Qed.

Lemma start_api_server_run (w : world) (s : state) :
  start_api_server w s
  = (Normal (match popen w with None => true | Some _ => false end),
     {| trace := trace s ++ start_events w; probes := probes s |}).
Proof.
  unfold start_api_server, start_events, bind, emit, st_error, ret.
  destruct (popen w); simpl; rewrite <- app_assoc; reflexivity.
Qed.

Lemma get_recommendations_from_api_run (q : string) (m : Z) (w : world)
    (s : state) :
  get_recommendations_from_api q (Some m) w s
  = (Normal (results_of (recommend w q m)),
     {| trace := trace s ++ EvPost recommend_url q m
                                   (status_of (recommend w q m))
                            :: errors_of (recommend w q m);
        probes := probes s |}).
Proof.
  unfold get_recommendations_from_api, bind, requests_post, st_error, emit,
    ret, results_of, errors_of.
  destruct (recommend w q m) as [code [e | l] | e]; simpl;
    try destruct (code =? 200); simpl;
    rewrite <- ?app_assoc; reflexivity.
Qed.

Lemma scrape_job_description_run (target : string) (w : world) (s : state) :
  scrape_job_description target w s
  = (Normal (scraped (fetch w target)),
     {| trace := trace s ++ [EvGet target (Some 10)
                                   (status_of (fetch w target))];
        probes := probes s |}).
Proof.
  unfold scrape_job_description, bind, requests_get, ret, scraped.
  destruct (fetch w target) as [code soup | e]; simpl;
    [destruct (job_div soup)|]; reflexivity.
Qed.

Ltac run_calls :=
  repeat first
    [ rewrite check_api_health_run
    | rewrite start_api_server_run
    | rewrite get_recommendations_from_api_run
    | rewrite scrape_job_description_run
    | rewrite (for_each_emit
                 (fun ia => StCard (render_card (fst ia) (snd ia))))
    | progress cbv beta iota
    | progress cbn [fst snd trace probes negb andb orb initial app
                    Py.truthy_opt] ].

Ltac run_inputs w :=
  unfold input_events, recommendation_events, asks, answer, query_text,
    query_of, slider_value, result_events, cards_of, footer_events;
  destruct (radio (ui w)); destruct (button (ui w)); run_calls;
  repeat match goal with
    | |- context [Py.truthy ?s] => destruct (Py.truthy s) eqn:?; run_calls
    end;
  repeat match goal with
    | |- context [match results_of ?r with _ => _ end] =>
        destruct (results_of r) eqn:?; run_calls
    end;
  rewrite <- ?app_assoc; cbn [app]; rewrite <- ?app_assoc;
  try reflexivity.

(** The events and the outcome of a run, phase by phase. *)
Lemma run_app_phases (w : world) :
  run_app w
  = if key_present w then
      if healthy_after w then
        (Normal tt,
         {| trace := health_events w ++ StMarkdown MainHeader
                     :: input_events w ++ recommendation_events w;
            probes := if ok_reply (health w 0%nat) then 1%nat else 2%nat |})
      else (Stopped, {| trace := health_events w; probes := 2 |})
    else (Stopped, {| trace := key_error_events; probes := 0 |}).
Proof.
  unfold run_app, app_py, key_present, Py.truthy_opt.
  destruct (OPENROUTER_API_KEY w) as [key|]; [|reflexivity].
  destruct (Py.truthy key); [|reflexivity].
  unfold main, healthy_after, health_events, probe_event.
  unfold call, bind, ret, emit, st_stop, py_return, st_info, st_error,
    st_warning, st_markdown, st_metric, st_radio, st_slider, st_text_area,
    st_text_input, st_button, emit.
  run_calls.
  destruct (ok_reply (health w 0%nat)) eqn:H0; run_calls.
  - run_inputs w.
  - destruct (ok_reply (health w 1%nat)) eqn:H1; run_calls.
    + run_inputs w.
    + rewrite <- ?app_assoc; cbn [app]. reflexivity.
Qed.

Lemma events_phases (w : world) :
  events w
  = if key_present w then
      health_events w ++
      (if healthy_after w then
         StMarkdown MainHeader :: input_events w ++ recommendation_events w
       else [])
    else key_error_events.
Proof.
  unfold events. rewrite run_app_phases.
  destruct (key_present w); [|reflexivity].
  destruct (healthy_after w); simpl; [reflexivity|].
  now rewrite app_nil_r.
Qed.

Lemma outcome_phases (w : world) :
  fst (run_app w) = if reaches_inputs w then Normal tt else Stopped.
Proof.
  rewrite run_app_phases. unfold reaches_inputs, healthy_after.
  destruct (key_present w); [|reflexivity].
  destruct (ok_reply (health w 0%nat) || ok_reply (health w 1%nat));
    reflexivity.
Qed.

(** Where the requests of a run are. *)

Lemma health_events_no_post (w : world) :
  existsb is_post (health_events w) = false.
Proof.
  unfold health_events, start_events, probe_event.
  destruct (ok_reply (health w 0%nat)); [reflexivity|].
  destruct (popen w), (ok_reply (health w 1%nat)); reflexivity.
Qed.

Lemma input_events_no_post (w : world) :
  existsb is_post (input_events w) = false.
Proof.
  unfold input_events.
  destruct (radio (ui w)); [reflexivity|].
  destruct (button (ui w) && Py.truthy (text_input (ui w))); reflexivity.
Qed.

Lemma errors_of_no_post (r : reply json_body) :
  existsb is_post (errors_of r) = false.
Proof.
  destruct r as [code [e | l] | e]; simpl; try reflexivity.
  destruct (code =? 200); reflexivity.
Qed.

Lemma result_events_no_post (results : list assessment) :
  existsb is_post (result_events results) = false.
Proof.
  unfold result_events, cards_of. simpl.
  rewrite existsb_app. simpl. rewrite orb_false_r.
  induction (enumerate_from 0 results) as [|ia l IH]; simpl; auto.
Qed.

Lemma is_probe_success_probe_event (w : world) (n : nat) :
  is_probe_success (probe_event w n) = ok_reply (health w n).
Proof.
  unfold probe_event, is_probe_success, ok_reply.
  destruct (health w n) as [code body | e]; cbn [status_of]; [|reflexivity].
  now rewrite String.eqb_refl.
Qed.

Lemma health_events_probe_success (w : world) :
  existsb is_probe_success (health_events w) = healthy_after w.
Proof.
  unfold health_events, healthy_after.
  cbn [existsb]. rewrite is_probe_success_probe_event.
  destruct (ok_reply (health w 0%nat)); [reflexivity|].
  cbn [existsb orb]. rewrite existsb_app. cbn [existsb].
  rewrite is_probe_success_probe_event.
  assert (Hs : existsb is_probe_success (start_events w) = false)
    by (unfold start_events; destruct (popen w); reflexivity).
  rewrite Hs.
  destruct (ok_reply (health w 1%nat)); reflexivity.
Qed.

Lemma existsb_false_not_in {A} (p : A -> bool) (l : list A) (a : A) :
  existsb p l = false -> p a = true -> ~ In a l.
Proof.
  intros Hl Ha Hin.
  assert (existsb p l = true) by (apply existsb_exists; eauto).
  congruence.
Qed.

(** A POST in the trace is the one of the recommendations section. *)
Lemma post_in_events (w : world) (e : event) :
  In e (events w) -> is_post e = true ->
  reaches_inputs w = true /\ asks w = true
  /\ e = EvPost recommend_url (query_text w) (slider_value w)
               (status_of (answer w)).
Proof.
  intros Hin He. rewrite events_phases in Hin. unfold reaches_inputs.
  destruct (key_present w).
  2: { destruct Hin as [<- | []]; discriminate. }
  apply in_app_or in Hin as [Hin | Hin].
  { now apply (existsb_false_not_in _ _ _ (health_events_no_post w) He)
      in Hin. }
  destruct (healthy_after w) eqn:Hh; [|destruct Hin].
  unfold healthy_after in Hh; rewrite Hh. split; [reflexivity|].
  destruct Hin as [<- | Hin]; [discriminate|].
  apply in_app_or in Hin as [Hin | Hin].
  { now apply (existsb_false_not_in _ _ _ (input_events_no_post w) He)
      in Hin. }
  unfold recommendation_events in Hin.
  destruct (asks w).
  2: { destruct Hin as [<- | [<- | []]]; discriminate. }
  split; [reflexivity|].
  destruct Hin as [<- | Hin]; [reflexivity|].
  apply in_app_or in Hin as [Hin | Hin].
  { now apply (existsb_false_not_in _ _ _ (errors_of_no_post _) He)
      in Hin. }
  destruct (results_of (answer w)) eqn:Hr.
  { destruct Hin as [<- | []]; discriminate. }
  apply in_app_or in Hin as [Hin | Hin].
  { now apply (existsb_false_not_in _ _ _ (result_events_no_post _) He)
      in Hin. }
  destruct Hin as [<- | [<- | []]]; discriminate.
Qed.

Lemma request_is_post (e : event) :
  is_recommend_request e = true -> is_post e = true.
Proof. destruct e; simpl; congruence. Qed.

Lemma no_post_no_request (t : list event) :
  existsb is_post t = false -> existsb is_recommend_request t = false.
Proof.
  induction t as [|e t IH]; simpl; [reflexivity|].
  intros H; apply orb_false_iff in H as [He Ht].
  rewrite (IH Ht), orb_false_r.
  destruct (is_recommend_request e) eqn:Hr; [|reflexivity].
  apply request_is_post in Hr. congruence.
Qed.

Lemma gated_true (t : list event) : gated true t = true.
Proof.
  induction t as [|e t IH]; simpl; [reflexivity|].
  destruct (is_recommend_request e); simpl; exact IH.
Qed.

Lemma gated_app (h : bool) (t1 t2 : list event) :
  existsb is_recommend_request t1 = false ->
  gated (h || existsb is_probe_success t1) t2 = true ->
  gated h (t1 ++ t2) = true.
Proof.
  revert h; induction t1 as [|e t1 IH]; intros h H1 H2; simpl in *.
  - now rewrite orb_false_r in H2.
  - apply orb_false_iff in H1 as [-> H1].
    apply IH; [exact H1|]. now rewrite <- orb_assoc.
Qed.

Lemma gated_sound (t : list event) (h : bool) :
  gated h t = true ->
  forall t1 e t2, t = t1 ++ e :: t2 -> is_recommend_request e = true ->
                  h || existsb is_probe_success t1 = true.
Proof.
  revert h; induction t as [|x t IH]; intros h Hg t1 e t2 Heq He.
  - destruct t1; discriminate.
  - destruct t1 as [|y t1]; simpl in Heq; injection Heq as -> ->.
    + simpl in Hg. rewrite He in Hg.
      apply andb_true_iff in Hg as [-> _]. reflexivity.
    + simpl in Hg |- *. destruct (is_recommend_request y) eqn:Hy.
      * apply andb_true_iff in Hg as [-> _]. reflexivity.
      * specialize (IH _ Hg _ _ _ eq_refl He).
        now rewrite orb_assoc.
Qed.

Lemma events_gated (w : world) : gated false (events w) = true.
Proof.
  rewrite events_phases.
  destruct (key_present w); [|reflexivity].
  apply gated_app; [apply no_post_no_request, health_events_no_post|].
  rewrite health_events_probe_success. simpl.
  destruct (healthy_after w); [apply gated_true | reflexivity].
Qed.

(** ** The health gate *)

(** C6: in every run, a recommendation request comes only after a health
    probe that returned success; when the first probe fails the backend is
    started and probed again; when that probe fails too the run halts and
    the recommendation endpoint is never called. *)
Theorem request_only_after_successful_probe (w : world) :
  (forall t1 e t2,
      events w = t1 ++ e :: t2 -> is_recommend_request e = true ->
      existsb is_probe_success t1 = true)
  /\ (key_present w = true -> ok_reply (health w 0%nat) = false ->
      exists rest,
        events w = probe_event w 0%nat
                   :: StInfo "Starting backend AI service..."
                   :: start_events w ++ probe_event w 1%nat :: rest)
  /\ (key_present w = true -> ok_reply (health w 0%nat) = false ->
      ok_reply (health w 1%nat) = false ->
      fst (run_app w) = Stopped /\ requests w = false).
Proof.
  split; [|split].
  - intros t1 e t2 Heq He.
    exact (gated_sound _ _ (events_gated w) _ _ _ Heq He).
  - intros Hk H0. rewrite events_phases, Hk.
    unfold health_events. rewrite H0. cbn [app].
    rewrite <- app_assoc. cbn [app]. eexists. reflexivity.
  - intros Hk H0 H1. split.
    + rewrite outcome_phases. unfold reaches_inputs. now rewrite Hk, H0, H1.
    + unfold requests. rewrite events_phases, Hk.
      unfold healthy_after. rewrite H0, H1. cbn [orb]. rewrite app_nil_r.
      apply no_post_no_request, health_events_no_post.
Qed.

Lemma request_only_after_successful_probe_witness :
  existsb is_probe_success
    [probe_event world_text 0%nat; StMarkdown MainHeader] = true
  /\ (exists rest,
        events world_down
        = probe_event world_down 0%nat
          :: StInfo "Starting backend AI service..."
          :: start_events world_down ++ probe_event world_down 1%nat :: rest)
  /\ fst (run_app world_down) = Stopped /\ requests world_down = false.
Proof.
  split; [|split].
  - apply (proj1 (request_only_after_successful_probe world_text)
             [probe_event world_text 0%nat; StMarkdown MainHeader]
             (EvPost recommend_url (text_area (ui world_text)) 10 (Some 200))
             (skipn 3 (events world_text)));
      reflexivity.
  - apply (proj1 (proj2 (request_only_after_successful_probe world_down)));
      reflexivity.
  - apply (proj2 (proj2 (request_only_after_successful_probe world_down)));
      reflexivity.
Defined.

(** ** The request *)

Lemma truthy_nonempty (s : string) : Py.truthy s = true <-> s <> "".
Proof.
  unfold Py.truthy. destruct s; simpl; split; congruence.
Qed.

Lemma slider_value_range (w : world) : 3 <= slider_value w <= 15.
Proof. unfold slider_value. destruct (slider (ui w)); lia. Qed.

(** C3: every request sent to the recommendation endpoint carries a
    non-empty query and a [max_results] between 1 and 50: the slider only
    yields 3 to 15, and 10 while it is untouched; 10 is also the default of
    [get_recommendations_from_api]. *)
Theorem request_meets_input_contract (w : world) (target q : string) (m : Z)
    (st : option Z) :
  In (EvPost target q m st) (events w) ->
  target = recommend_url
  /\ q <> ""
  /\ 1 <= m <= 50
  /\ 3 <= m <= 15
  /\ (slider (ui w) = None -> m = 10)
  /\ (forall s, trace (snd (get_recommendations_from_api q None w s))
                = trace s ++ EvPost recommend_url q 10
                                    (status_of (recommend w q 10))
                             :: errors_of (recommend w q 10)).
Proof.
  intros Hin.
  destruct (post_in_events w _ Hin eq_refl) as (_ & Hasks & Heq).
  injection Heq as -> -> -> ->.
  pose proof (slider_value_range w) as Hr.
  split; [reflexivity|]. split; [|repeat split; try lia].
  - unfold asks in Hasks. apply andb_true_iff in Hasks as [_ Hq].
    unfold query_text. destruct (query_of w) as [q|]; [|discriminate].
    now apply truthy_nonempty.
  - intros Hs. unfold slider_value. now rewrite Hs.
  - intros s.
    unfold get_recommendations_from_api, bind, requests_post, st_error, emit,
      ret, errors_of, recommend_url.
    destruct (recommend w (query_text w) 10) as [code [e | l] | e]; simpl;
      try destruct (code =? 200); simpl;
      rewrite <- ?app_assoc; reflexivity.
Qed.

Lemma request_meets_input_contract_witness :
  In (EvPost recommend_url "Error: Read timed out" 15 (Some 200))
     (events world_url)
  /\ "Error: Read timed out" <> "" /\ 1 <= 15 <= 50.
Proof.
  assert (Hin : In (EvPost recommend_url "Error: Read timed out" 15 (Some 200))
                   (events world_url)).
  { vm_compute. do 8 right. left. reflexivity. }
  split; [exact Hin|].
  destruct (request_meets_input_contract world_url _ _ _ _ Hin)
    as (_ & Hq & Hm & _).
  split; [exact Hq | exact Hm].
Defined.

(** ** What a run shows for a reply *)

Lemma reaches_inputs_split (w : world) :
  reaches_inputs w = true -> key_present w = true /\ healthy_after w = true.
Proof. unfold reaches_inputs, healthy_after. apply andb_true_iff. Qed.

Lemma events_when_asking (w : world) :
  reaches_inputs w = true -> asks w = true ->
  events w
  = (health_events w ++ StMarkdown MainHeader :: input_events w)
    ++ EvPost recommend_url (query_text w) (slider_value w)
              (status_of (answer w))
    :: errors_of (answer w)
    ++ match results_of (answer w) with
       | [] => [StWarning no_results_warning]
       | _ :: _ => result_events (results_of (answer w)) ++ footer_events
       end.
Proof.
  intros Hr Ha. apply reaches_inputs_split in Hr as [Hk Hh].
  rewrite events_phases, Hk, Hh. unfold recommendation_events.
  rewrite Ha, <- app_assoc. reflexivity.
Qed.

Lemma requests_iff (w : world) : requests w = reaches_inputs w && asks w.
Proof.
  unfold requests.
  destruct (existsb is_recommend_request (events w)) eqn:He.
  - apply existsb_exists in He as (e & Hin & He).
    destruct (post_in_events w e Hin (request_is_post e He)) as (-> & -> & _).
    reflexivity.
  - destruct (reaches_inputs w) eqn:Hr; [|reflexivity].
    destruct (asks w) eqn:Ha; [|reflexivity].
    rewrite (events_when_asking w Hr Ha), existsb_app in He.
    apply orb_false_iff in He as [_ He]. cbn [existsb] in He.
    unfold is_recommend_request in He at 1.
    now rewrite String.eqb_refl in He.
Qed.

Lemma filter_all {A} (p : A -> bool) (l : list A) :
  forallb p l = true -> List.filter p l = l.
Proof.
  induction l as [|a l IH]; simpl; [reflexivity|].
  intros H; apply andb_true_iff in H as [-> H]. now rewrite IH.
Qed.

Lemma errors_of_output (r : reply json_body) :
  List.filter is_output (errors_of r) = errors_of r.
Proof.
  destruct r as [code [e | l] | e]; simpl; try reflexivity.
  destruct (code =? 200); reflexivity.
Qed.

Lemma result_events_output (results : list assessment) :
  List.filter is_output (result_events results) = result_events results.
Proof.
  apply filter_all. unfold result_events, cards_of. cbn [app forallb is_output andb].
  rewrite forallb_app. cbn [forallb is_output andb]. rewrite andb_true_r.
  induction (enumerate_from 0 results) as [|ia l IH]; simpl; auto.
Qed.

(** What is shown before the recommendations section. *)
Lemma rendered_when_asking (w : world) :
  reaches_inputs w = true -> asks w = true ->
  rendered w
  = List.filter is_output
      (health_events w ++ StMarkdown MainHeader :: input_events w)
    ++ errors_of (answer w)
    ++ match results_of (answer w) with
       | [] => [StWarning no_results_warning]
       | _ :: _ => result_events (results_of (answer w)) ++ footer_events
       end.
Proof.
  intros Hr Ha. unfold rendered.
  rewrite (events_when_asking w Hr Ha), filter_app. f_equal.
  cbn [List.filter is_output]. rewrite filter_app, errors_of_output. f_equal.
  destruct (results_of (answer w)); [reflexivity|].
  rewrite filter_app, result_events_output. reflexivity.
Qed.

Lemma refused_quiet (r : reply json_body) :
  refused r = true -> errors_of r = [] /\ results_of r = [].
Proof.
  destruct r as [code [e | l] | e]; simpl; try discriminate;
    destruct (code =? 200); simpl; try discriminate; auto.
Qed.

Lemma raises_shown (r : reply json_body) (e : string) :
  raises r = Some e ->
  errors_of r = [StError ("API error: " ++ e)%string] /\ results_of r = [].
Proof.
  destruct r as [code [e' | l] | e']; simpl; try discriminate;
    try (destruct (code =? 200); try discriminate);
    intros [= ->]; auto.
Qed.

(** ** Failures and empty results *)

(** C1, as the boundary layer has it: a reply with a status other than 200
    is shown exactly as a success without matches; an exception of the
    call (transport failure or unreadable body) is shown as an "API error"
    message, followed by the same warning as a success without matches. *)
Theorem failure_presentation (w : world) (r : reply json_body) :
  (refused r = true ->
   rendered (with_reply w r) = rendered (with_reply w empty_success))
  /\ (forall e, raises r = Some e -> requests (with_reply w r) = true ->
      (exists pre,
          rendered (with_reply w r)
          = pre ++ [StError ("API error: " ++ e)%string;
                    StWarning no_results_warning]
          /\ rendered (with_reply w empty_success)
             = pre ++ [StWarning no_results_warning])
      /\ surfaced_distinctly w r).
Proof.
  assert (Hsame : forall r', requests (with_reply w r') = reaches_inputs w && asks w).
  { intros r'. rewrite requests_iff. reflexivity. }
  assert (Hshown : forall r', reaches_inputs w = true -> asks w = true ->
            rendered (with_reply w r')
            = List.filter is_output
                (health_events w ++ StMarkdown MainHeader :: input_events w)
              ++ errors_of r'
              ++ match results_of r' with
                 | [] => [StWarning no_results_warning]
                 | _ :: _ => result_events (results_of r') ++ footer_events
                 end).
  { intros r' Hr Ha. now rewrite (rendered_when_asking (with_reply w r')). }
  split.
  - intros Href. destruct (refused_quiet r Href) as [He Hres].
    destruct (reaches_inputs w && asks w) eqn:Hq.
    + apply andb_true_iff in Hq as [Hr Ha].
      rewrite !Hshown, He, Hres by assumption. reflexivity.
    + unfold rendered. f_equal. rewrite !events_phases.
      change (key_present (with_reply w r)) with (key_present w).
      change (key_present (with_reply w empty_success)) with (key_present w).
      destruct (key_present w) eqn:Hk; [|reflexivity].
      change (healthy_after (with_reply w r)) with (healthy_after w).
      change (healthy_after (with_reply w empty_success))
        with (healthy_after w).
      destruct (healthy_after w) eqn:Hh; [|reflexivity].
      unfold recommendation_events.
      change (asks (with_reply w r)) with (asks w).
      change (asks (with_reply w empty_success)) with (asks w).
      unfold reaches_inputs in Hq. fold (healthy_after w) in Hq.
      rewrite Hk, Hh in Hq. simpl in Hq. rewrite Hq. reflexivity.
  - intros e He Hreq. rewrite Hsame in Hreq.
    apply andb_true_iff in Hreq as [Hr Ha].
    destruct (raises_shown r e He) as [Herr Hres].
    assert (H1 := Hshown r Hr Ha). rewrite Herr, Hres in H1.
    assert (H2 := Hshown empty_success Hr Ha). cbn [errors_of results_of empty_success Z.eqb Pos.eqb app] in H2.
    split.
    + eexists; split; [exact H1 | exact H2].
    + unfold surfaced_distinctly. rewrite H1, H2. intros Heq.
      apply app_inv_head in Heq. discriminate.
Qed.

Lemma failure_presentation_witness :
  rendered (with_reply world_text catalog_unavailable)
  = rendered (with_reply world_text empty_success)
  /\ surfaced_distinctly world_text (Raised "Connection aborted").
Proof.
  split.
  - apply (proj1 (failure_presentation world_text catalog_unavailable)).
    reflexivity.
  - apply (proj2 (failure_presentation world_text (Raised "Connection aborted"))
             "Connection aborted"); reflexivity.
Defined.

(** C1 as stated fails: a 503 from the service is a failure, the request
    is made, and the user sees exactly what a success without matches
    shows. *)
Lemma failure_shown_as_no_matches :
  failure catalog_unavailable = true
  /\ requests (with_reply world_text catalog_unavailable) = true
  /\ ~ surfaced_distinctly world_text catalog_unavailable.
Proof.
  split; [reflexivity|]. split; [reflexivity|].
  unfold surfaced_distinctly. intros H. apply H. reflexivity.
Qed.

Lemma health_events_shows_none (w : world) :
  existsb shows_recommendation (health_events w) = false.
Proof.
  unfold health_events, start_events, probe_event.
  destruct (ok_reply (health w 0%nat)); [reflexivity|].
  destruct (popen w), (ok_reply (health w 1%nat)); reflexivity.
Qed.

Lemma input_events_shows_none (w : world) :
  existsb shows_recommendation (input_events w) = false.
Proof.
  unfold input_events.
  destruct (radio (ui w)); [reflexivity|].
  destruct (button (ui w) && Py.truthy (text_input (ui w))); reflexivity.
Qed.

(** C2: when the service answers 200 with an empty list, the call returns
    the empty list and shows no error; the run then ends with the warning
    that asks to refine the query, and shows no recommendation. *)
Theorem no_matches_gives_refine_warning (w : world) :
  (forall q m, recommend w q m = empty_success) ->
  requests w = true ->
  (forall q m s,
      get_recommendations_from_api q (Some m) w s
      = (Normal [],
         {| trace := trace s ++ [EvPost recommend_url q m (Some 200)];
            probes := probes s |}))
  /\ fst (run_app w) = Normal tt
  /\ (exists pre,
         events w = pre ++ [EvPost recommend_url (query_text w)
                                   (slider_value w) (Some 200);
                            StWarning no_results_warning])
  /\ existsb shows_recommendation (events w) = false.
Proof.
  intros Hrec Hreq.
  rewrite requests_iff in Hreq. apply andb_true_iff in Hreq as [Hr Ha].
  split; [|split; [|split]].
  - intros q m s. rewrite get_recommendations_from_api_run, Hrec.
    reflexivity.
  - rewrite outcome_phases, Hr. reflexivity.
  - rewrite (events_when_asking w Hr Ha). unfold answer. rewrite Hrec.
    eexists. reflexivity.
  - rewrite (events_when_asking w Hr Ha). unfold answer. rewrite Hrec.
    rewrite !existsb_app. cbn [existsb].
    rewrite health_events_shows_none, input_events_shows_none.
    reflexivity.
Qed.

Lemma no_matches_gives_refine_warning_witness :
  requests (with_reply world_url empty_success) = true
  /\ existsb shows_recommendation (events (with_reply world_url empty_success))
     = false
  /\ exists pre,
       events (with_reply world_url empty_success)
       = pre ++ [EvPost recommend_url "Error: Read timed out" 15 (Some 200);
                 StWarning no_results_warning].
Proof.
  assert (Hreq : requests (with_reply world_url empty_success) = true)
    by reflexivity.
  destruct (no_matches_gives_refine_warning
              (with_reply world_url empty_success)
              (fun _ _ => eq_refl) Hreq) as (_ & _ & Hpre & Hnone).
  split; [exact Hreq|]. split; [exact Hnone | exact Hpre].
Defined.

(** ** The scraper *)

(** C9: [scrape_job_description] always returns a string; when the fetch
    or the parse raises, the string is "Error: " followed by the text of
    the exception, and a run in URL mode then sends that text to the
    recommendation endpoint as the query. *)
Theorem scrape_error_becomes_query (w : world) (target : string) :
  (forall s, exists text,
      fst (scrape_job_description target w s) = Normal text
      /\ forall e, fetch w target = Raised e ->
                   text = ("Error: " ++ e)%string)
  /\ (forall e,
        reaches_inputs w = true ->
        radio (ui w) = JobDescriptionURL ->
        button (ui w) = true ->
        text_input (ui w) = target ->
        target <> "" ->
        fetch w target = Raised e ->
        In (StTextArea "Extracted Job Description" ("Error: " ++ e)%string)
           (events w)
        /\ In (EvPost recommend_url ("Error: " ++ e)%string (slider_value w)
                 (status_of (recommend w ("Error: " ++ e)%string
                                       (slider_value w))))
              (events w)).
Proof.
  split.
  - intros s. rewrite scrape_job_description_run. eexists; split.
    + reflexivity.
    + intros e ->. reflexivity.
  - intros e Hr Hradio Hb Ht Hne Hf.
    apply truthy_nonempty in Hne.
    assert (Hq : query_of w = Some ("Error: " ++ e)%string).
    { unfold query_of. now rewrite Hradio, Hb, Ht, Hne, Hf. }
    assert (Ha : asks w = true).
    { unfold asks. now rewrite Hb, Hq. }
    rewrite (events_when_asking w Hr Ha). unfold answer, query_text.
    rewrite Hq. split.
    + apply in_or_app; left. apply in_or_app; right. right.
      unfold input_events. rewrite Hradio, Hb, Ht, Hne, Hf.
      right; left; reflexivity.
    + apply in_or_app; right. left. reflexivity.
Qed.

Lemma scrape_error_becomes_query_witness :
  fetch world_url "https://jobs.example.com/42" = Raised "Read timed out"
  /\ In (EvPost recommend_url "Error: Read timed out" 15 (Some 200))
        (events world_url).
Proof.
  split; [reflexivity|].
  apply (proj2 (scrape_error_becomes_query world_url
                  "https://jobs.example.com/42") "Read timed out");
    try reflexivity.
  discriminate.
Defined.

(** ** The duration metric *)

Lemma durations_of_app (l1 l2 : list assessment) :
  durations_of (l1 ++ l2) = durations_of l1 ++ durations_of l2.
Proof. unfold durations_of. apply flat_map_app. Qed.






(** ** The presentation split *)

Lemma split_cons (sep : ascii) (s : string) :
  exists seg rest, Py.split sep s = seg :: rest.
Proof.
  destruct s as [|c s]; simpl; [eauto|].
  destruct (Ascii.eqb c sep); [eauto|].
  destruct (Py.split sep s); eauto.
Qed.

Lemma concat_cons (sep x : string) (y : string) (l : list string) :
  String.concat sep (x :: y :: l)
  = (x ++ sep ++ String.concat sep (y :: l))%string.
Proof. reflexivity. Qed.

(** Joining the segments with the separator gives the string back. *)
Lemma join_split (sep : ascii) (s : string) :
  Py.join (String sep EmptyString) (Py.split sep s) = s.
Proof.
  unfold Py.join. induction s as [|c s IH]; [reflexivity|].
  cbn [Py.split].
  destruct (Ascii.eqb c sep) eqn:Hc.
  - apply Ascii.eqb_eq in Hc as ->.
    destruct (split_cons sep s) as (seg & rest & Hs). rewrite Hs in *.
    rewrite concat_cons, IH. reflexivity.
  - destruct (Py.split sep s) as [|seg rest].
    + simpl in IH. now subst.
    + destruct rest as [|seg' rest].
      * simpl in *. now subst.
      * rewrite concat_cons in *. rewrite <- IH. reflexivity.
Qed.

(** No segment contains the separator. *)
Lemma split_free (sep : ascii) (s : string) :
  Forall (fun seg => contains sep seg = false) (Py.split sep s).
Proof.
  induction s as [|c s IH]; cbn [Py.split].
  - repeat constructor.
  - destruct (Ascii.eqb c sep) eqn:Hc.
    + constructor; [reflexivity | exact IH].
    + destruct (Py.split sep s) as [|seg rest].
      * repeat constructor. simpl. now rewrite Hc.
      * inversion IH as [|? ? Hseg Hrest]; subst.
        constructor; [|exact Hrest]. simpl. now rewrite Hc, Hseg.
Qed.

(** A string has a second segment exactly when it contains the
    separator. *)
Lemma contains_split (sep : ascii) (s : string) :
  contains sep s = match Py.split sep s with
                   | _ :: _ :: _ => true
                   | _ => false
                   end.
Proof.
  induction s as [|c s IH]; cbn [Py.split contains]; [reflexivity|].
  destruct (Ascii.eqb c sep); simpl.
  - destruct (split_cons sep s) as (seg & rest & ->). reflexivity.
  - destruct (Py.split sep s) as [|seg [|seg' rest]]; exact IH.
Qed.

Lemma unspace_free (s : string) :
  contains "." s = false -> unspace s = s.
Proof.
  induction s as [|c s IH]; simpl; [reflexivity|].
  intros H; apply orb_false_iff in H as [Hc Hs].
  rewrite Hc. now rewrite IH.
Qed.

Lemma unspace_segment (s rest : string) :
  contains "." s = false ->
  unspace (s ++ ". " ++ rest) = (s ++ "." ++ unspace rest)%string.
Proof.
  induction s as [|c s IH]; intros H.
  - reflexivity.
  - simpl in H. apply orb_false_iff in H as [Hc Hs].
    cbn [String.append unspace]. rewrite Hc.
    cbn [String.append] in IH. now rewrite IH.
Qed.

(** Undoing the spaces added by the join. *)
Lemma unspace_join (segs : list string) :
  Forall (fun seg => contains "." seg = false) segs ->
  unspace (Py.join ". " segs) = Py.join "." segs.
Proof.
  unfold Py.join.
  induction 1 as [|seg rest Hseg Hrest IH]; [reflexivity|].
  destruct rest as [|seg' rest].
  - simpl. now apply unspace_free.
  - rewrite !concat_cons, unspace_segment, IH by exact Hseg. reflexivity.
Qed.

(** C5, as the cards have it: the split on '.' loses nothing, but the card
    does not show the segments as they were: the headline is the first
    segment and the rationale joins the others with ". ".  A description
    with a '.' is the headline, a '.', and the rationale without the space
    after each of its '.'; a description without '.' is the headline, and
    its rationale is empty. *)
Theorem description_from_card (i : Z) (a : assessment) :
  Py.join "." (Py.split "." (description a)) = description a
  /\ headline (render_card i a) = headline_of (description a)
  /\ rationale (render_card i a) = rationale_of (description a)
  /\ recombine (contains "." (description a))
               (headline (render_card i a)) (rationale (render_card i a))
     = description a
  /\ if contains "." (description a) then True
     else headline (render_card i a) = description a
          /\ rationale (render_card i a) = "".
Proof.
  pose proof (join_split "." (description a)) as Hj.
  split; [exact Hj|]. split; [reflexivity|]. split; [reflexivity|].
  cbn [render_card headline rationale].
  rewrite (contains_split "." (description a)).
  pose proof (split_free "." (description a)) as Hfree.
  destruct (Py.split "." (description a)) as [|h [|seg rest]].
  - simpl in *. auto.
  - simpl in *. auto.
  - inversion Hfree as [|? ? _ Hrest]; subst.
    split; [|exact I].
    unfold recombine, Py.from1. cbn [hd tl].
    rewrite (unspace_join _ Hrest). unfold Py.join in *.
    rewrite concat_cons in Hj. exact Hj.
Qed.

(** C5 as stated fails: a description and the same description followed
    by '.' give the same headline and the same rationale, so nothing can
    rebuild the description from the two; and gluing the two back with a
    '.' does not rebuild a description of two sentences. *)
Lemma card_split_not_lossless :
  headline_of "Teamwork questionnaire" = headline_of "Teamwork questionnaire."
  /\ rationale_of "Teamwork questionnaire"
     = rationale_of "Teamwork questionnaire."
  /\ "Teamwork questionnaire" <> "Teamwork questionnaire."
  /\ (headline_of "Java 8 test. Measures core Java." ++ "."
      ++ rationale_of "Java 8 test. Measures core Java.")%string
     <> "Java 8 test. Measures core Java.".
Proof.
  repeat split; try reflexivity; vm_compute; discriminate.
Qed.

(** ** The constraint filter *)

Lemma within_ceiling_iff (c : Engine.constraints)
    (r : Engine.AssessmentRecord) :
  Engine.within_ceiling c r = true <-> ~ over_ceiling c r.
Proof.
  unfold Engine.within_ceiling, over_ceiling.
  destruct (Engine.duration_ceiling c) as [ceiling|];
    destruct (Engine.duration_minutes r) as [d|].
  - rewrite N.leb_le. split.
    + intros Hle (ceiling' & d' & [= <-] & [= <-] & Hlt). lia.
    + intros H. destruct (N.le_gt_cases d ceiling) as [Hle | Hgt];
        [exact Hle|]. exfalso. apply H. now exists ceiling, d.
  - split; [|reflexivity]. intros _ (? & ? & _ & H & _). discriminate.
  - split; [|reflexivity]. intros _ (? & ? & H & _). discriminate.
  - split; [|reflexivity]. intros _ (? & ? & H & _). discriminate.
Qed.

Lemma has_required_type_iff (c : Engine.constraints)
    (r : Engine.AssessmentRecord) :
  Engine.has_required_type c r = true <-> meets_types c r.
Proof.
  unfold Engine.has_required_type, meets_types.
  destruct (Engine.required_test_types c) as [|t0 req] eqn:Hreq.
  - split; auto.
  - rewrite existsb_exists. split.
    + intros (t & Ht & Hex). right. exists t. split; [exact Ht|].
      apply existsb_exists in Hex as (t' & Hin & Heq).
      apply String.eqb_eq in Heq. now subst.
    + intros [H | (t & Ht & Hin)]; [discriminate|].
      exists t. split; [exact Ht|]. apply existsb_exists.
      exists t. split; [exact Hin | apply String.eqb_refl].
Qed.

(** C7, as the filter of section 4.4 has it: for every candidate list,
    constraints and limit, the result is the first [limit] of the
    candidates that pass, in ranked order, where a candidate passes exactly
    when its duration is not both present and over the ceiling, and it has
    a required test type or none is required.  So a record over the
    ceiling is never kept and an absent duration never fails the duration
    constraint, but the test types and the limit remove records too.  With
    a ceiling of 40 only and no truncation, of the durations None, 15, 45,
    60 the filter keeps None and 15. *)
Theorem filter_keeps_first_passing
    (ranked : list (Engine.AssessmentRecord * Q)) (c : Engine.constraints)
    (limit : nat) :
  (forall rs, In rs (survivors ranked c)
              <-> In rs ranked /\ ~ over_ceiling c (fst rs)
                  /\ meets_types c (fst rs))
  /\ (forall r, Engine.duration_minutes r = None ->
                Engine.within_ceiling c r = true)
  /\ (exists rest,
         survivors ranked c = Engine.filter ranked c limit ++ rest
         /\ (rest = [] \/ length (Engine.filter ranked c limit) = limit))
  /\ (length (Engine.filter ranked c limit) <= limit)%nat
  /\ map (fun rs => Engine.duration_minutes (fst rs))
         (Engine.filter ranked_sample (ceiling_only 40) 4)
     = [None; Some 15%N].
Proof.
  split; [|split; [|split; [|split]]].
  - intros rs. unfold survivors. rewrite filter_In, andb_true_iff.
    rewrite within_ceiling_iff, has_required_type_iff. tauto.
  - intros r Hr. apply within_ceiling_iff.
    intros (? & ? & _ & H & _). congruence.
  - unfold Engine.filter. fold (survivors ranked c).
    exists (skipn limit (survivors ranked c)).
    split; [now rewrite firstn_skipn|].
    destruct (Nat.le_gt_cases limit (length (survivors ranked c)))
      as [Hle | Hgt].
    + right. now apply firstn_length_le.
    + left. apply skipn_all2. lia.
  - unfold Engine.filter. apply firstn_le_length.
  - reflexivity.
Qed.

Lemma filter_keeps_first_passing_witness :
  In (record_of "b" (Some 15%N) ["Personality"] [], (8 # 10)%Q)
     (survivors ranked_sample (ceiling_only 40))
  /\ ~ In (record_of "c" (Some 45%N) ["Ability"] [], (7 # 10)%Q)
          (survivors ranked_sample (ceiling_only 40))
  /\ (length (Engine.filter ranked_sample (ceiling_only 40) 1) <= 1)%nat.
Proof.
  destruct (filter_keeps_first_passing ranked_sample (ceiling_only 40) 1)
    as (Hin & _ & _ & Hlen & _).
  split; [|split; [|exact Hlen]].
  - apply Hin. split; [right; left; reflexivity|]. split.
    + intros (ceiling & d & [= <-] & [= <-] & Hlt). discriminate Hlt.
    + left. reflexivity.
  - intros H. apply Hin in H as (_ & H & _). apply H.
    exists 40%N, 45%N. repeat split.
Defined.

(** C7 as stated fails: under a ceiling of 40 and a limit of 1 the record
    of 15 minutes is removed though it does not exceed the ceiling, and
    when a test type is required as well the record without a duration
    is removed. *)
Lemma filter_removes_more_than_over_ceiling :
  (In (record_of "b" (Some 15%N) ["Personality"] [], (8 # 10)%Q)
      ranked_sample
   /\ ~ over_ceiling (ceiling_only 40) (record_of "b" (Some 15%N)
                                                  ["Personality"] [])
   /\ ~ In (record_of "b" (Some 15%N) ["Personality"] [], (8 # 10)%Q)
           (Engine.filter ranked_sample (ceiling_only 40) 1))
  /\ (In (record_of "a" None ["Ability"] [], (9 # 10)%Q) ranked_sample
      /\ Engine.duration_minutes (record_of "a" None ["Ability"] []) = None
      /\ ~ In (record_of "a" None ["Ability"] [], (9 # 10)%Q)
              (Engine.filter ranked_sample ceiling_and_type 4)).
Proof.
  split; split.
  - right; left; reflexivity.
  - split.
    + intros (ceiling & d & [= <-] & [= <-] & Hlt). discriminate Hlt.
    + vm_compute. intros [H | []]. discriminate H.
  - left; reflexivity.
  - split; [reflexivity|].
    vm_compute. intros [H | []]. discriminate H.
Qed.

(** ** The retriever *)

Section Ranking.

Import Engine.

Variable tol : Q.
Hypothesis tol_nonneg : (0 <= tol)%Q.













End Ranking.




(** * Further properties of the script *)

(** ** When a run halts *)

(** A run is halted by [st.stop()] exactly when the key is missing or
    empty, or both health probes fail; otherwise it ends normally.  Whether
    the backend process could be started plays no part. *)
Theorem run_stops_iff_no_key_or_unhealthy (w : world) :
  (fst (run_app w) = Stopped
   <-> (OPENROUTER_API_KEY w = None \/ OPENROUTER_API_KEY w = Some "")
       \/ (ok_reply (health w 0%nat) = false
           /\ ok_reply (health w 1%nat) = false))
  /\ (fst (run_app w) = Normal tt \/ fst (run_app w) = Stopped).
Proof.
  rewrite outcome_phases. unfold reaches_inputs, key_present, Py.truthy_opt.
  assert (Hkey : forall k, Py.truthy k = false <-> k = "").
  { intros k. unfold Py.truthy. destruct k; simpl; split; congruence. }
  destruct (OPENROUTER_API_KEY w) as [k|].
  - destruct (Py.truthy k) eqn:Hk; cbn [andb].
    + destruct (ok_reply (health w 0%nat)), (ok_reply (health w 1%nat));
        cbn [orb]; split; auto; split; auto; try discriminate.
      all: intros [[H | H] | [H1 H2]]; try discriminate.
      all: injection H as ->; discriminate.
    + apply Hkey in Hk as ->. split; auto. split; auto.
  - split; auto. split; auto.
Qed.

(** ** How often a run probes, starts and asks *)

Lemma count_app (p : event -> bool) (t1 t2 : list event) :
  count p (t1 ++ t2) = (count p t1 + count p t2)%nat.
Proof. unfold count. now rewrite filter_app, length_app. Qed.

Lemma count_none (p : event -> bool) (t : list event) :
  existsb p t = false -> count p t = 0%nat.
Proof.
  unfold count. induction t as [|e t IH]; simpl; [reflexivity|].
  intros H; apply orb_false_iff in H as [-> H]. now apply IH.
Qed.

(** Output events are no network or process events. *)
Lemma count_outputs (p : event -> bool) (t : list event) :
  (forall e, p e = true -> is_output e = false) ->
  List.filter is_output t = t -> count p t = 0%nat.
Proof.
  intros Hp Ht. apply count_none.
  destruct (existsb p t) eqn:He; [|reflexivity].
  apply existsb_exists in He as (e & Hin & He).
  rewrite <- Ht in Hin. apply filter_In in Hin as [_ Hout].
  rewrite (Hp e He) in Hout. discriminate.
Qed.

Lemma count_recommendation_events (p : event -> bool) (w : world) :
  (forall e, p e = true -> is_output e = false) ->
  count p (recommendation_events w)
  = if asks w
    then count p [EvPost recommend_url (query_text w) (slider_value w)
                         (status_of (answer w))]
    else 0%nat.
Proof.
  intros Hp. unfold recommendation_events.
  destruct (asks w); [|now apply count_outputs].
  change (EvPost recommend_url (query_text w) (slider_value w)
                 (status_of (answer w)) :: ?l)
    with ([EvPost recommend_url (query_text w) (slider_value w)
                  (status_of (answer w))] ++ l).
  rewrite !count_app.
  rewrite (count_outputs p (errors_of _) Hp (errors_of_output _)).
  destruct (results_of (answer w)).
  - rewrite (count_outputs p [StWarning no_results_warning] Hp eq_refl).
    reflexivity.
  - rewrite count_app, (count_outputs p _ Hp (result_events_output _)).
    rewrite (count_outputs p footer_events Hp eq_refl). reflexivity.
Qed.

Lemma count_input_events (w : world) :
  count is_probe (input_events w) = 0%nat
  /\ count is_popen (input_events w) = 0%nat
  /\ count is_post (input_events w) = 0%nat.
Proof.
  unfold input_events.
  destruct (radio (ui w)); [repeat split|].
  destruct (button (ui w) && Py.truthy (text_input (ui w)));
    repeat split.
Qed.

Lemma count_probe_health_events (w : world) :
  count is_probe (health_events w)
  = if ok_reply (health w 0%nat) then 1%nat else 2%nat.
Proof.
  unfold health_events, probe_event, start_events, count.
  cbn [List.filter is_probe]. rewrite String.eqb_refl.
  destruct (ok_reply (health w 0%nat)); [reflexivity|].
  cbn [List.filter is_probe length]. rewrite filter_app.
  cbn [List.filter is_probe]. rewrite String.eqb_refl.
  destruct (popen w), (ok_reply (health w 1%nat)); reflexivity.
Qed.

Lemma count_popen_health_events (w : world) :
  count is_popen (health_events w)
  = if ok_reply (health w 0%nat) then 0%nat else 1%nat.
Proof.
  unfold health_events, probe_event, start_events, count.
  destruct (ok_reply (health w 0%nat)); [reflexivity|].
  destruct (popen w), (ok_reply (health w 1%nat)); reflexivity.
Qed.

(** A run probes the health endpoint once when the first probe succeeds
    and twice otherwise, starts the backend process once exactly when the
    first probe fails, and sends at most one request; without a key it
    does none of these. *)
Theorem probes_starts_and_requests_per_run (w : world) :
  count is_probe (events w)
  = (if key_present w
     then if ok_reply (health w 0%nat) then 1 else 2
     else 0)%nat
  /\ count is_popen (events w)
     = (if key_present w && negb (ok_reply (health w 0%nat)) then 1 else 0)%nat
  /\ count is_post (events w)
     = (if requests w then 1 else 0)%nat.
Proof.
  rewrite requests_iff. unfold reaches_inputs. fold (healthy_after w).
  rewrite events_phases.
  destruct (key_present w); [|repeat split].
  cbn [andb]. rewrite !count_app.
  rewrite count_probe_health_events, count_popen_health_events.
  rewrite (count_none is_post _ (health_events_no_post w)).
  destruct (count_input_events w) as (Hi1 & Hi2 & Hi3).
  destruct (healthy_after w) eqn:Hh.
  - change (StMarkdown MainHeader :: ?l) with ([StMarkdown MainHeader] ++ l).
    rewrite !count_app, Hi1, Hi2, Hi3.
    rewrite !count_recommendation_events
      by (intros e; destruct e as [? [?|] ?| | | | | | | | | | |];
          simpl; congruence).
    cbn [andb]. destruct (ok_reply (health w 0%nat)), (asks w);
      repeat split.
  - unfold healthy_after in Hh. apply orb_false_iff in Hh as [-> _].
    repeat split.
Qed.

(** ** The two input modes *)

Lemma health_events_no_fetch (w : world) :
  existsb is_fetch (health_events w) = false.
Proof.
  unfold health_events, start_events, probe_event.
  destruct (ok_reply (health w 0%nat)); [reflexivity|].
  destruct (popen w), (ok_reply (health w 1%nat)); reflexivity.
Qed.

Lemma fetch_is_no_output (e : event) :
  is_fetch e = true -> is_output e = false.
Proof. destruct e; simpl; congruence. Qed.

Lemma count_fetch_events (w : world) :
  reaches_inputs w = true ->
  count is_fetch (events w) = count is_fetch (input_events w).
Proof.
  intros Hr. apply reaches_inputs_split in Hr as [Hk Hh].
  rewrite events_phases, Hk, Hh.
  change (StMarkdown MainHeader :: ?l) with ([StMarkdown MainHeader] ++ l).
  rewrite !count_app, (count_none _ _ (health_events_no_fetch w)).
  rewrite (count_recommendation_events _ w fetch_is_no_output).
  destruct (asks w); cbn; lia.
Qed.

(** In text mode the request is made exactly when the button is pressed
    and the text is not empty; it carries the text as typed, and no page
    is fetched. *)
Theorem text_mode_request (w : world) :
  radio (ui w) = TextQuery ->
  reaches_inputs w = true ->
  requests w = button (ui w) && Py.truthy (text_area (ui w))
  /\ (forall target q m st,
         In (EvPost target q m st) (events w) -> q = text_area (ui w))
  /\ count is_fetch (events w) = 0%nat.
Proof.
  intros Hmode Hr.
  assert (Hq : query_of w = Some (text_area (ui w))).
  { unfold query_of. now rewrite Hmode. }
  split; [|split].
  - rewrite requests_iff, Hr. unfold asks. now rewrite Hq.
  - intros target q m st Hin.
    destruct (post_in_events w _ Hin eq_refl) as (_ & _ & Heq).
    injection Heq as _ -> _ _. unfold query_text. now rewrite Hq.
  - rewrite (count_fetch_events w Hr). unfold input_events.
    now rewrite Hmode.
Qed.

Lemma text_mode_request_witness :
  requests world_text = true
  /\ requests world_idle = false
  /\ count is_fetch (events world_text) = 0%nat.
Proof.
  destruct (text_mode_request world_text eq_refl eq_refl) as (H1 & _ & H3).
  destruct (text_mode_request world_idle eq_refl eq_refl) as (H2 & _ & _).
  split; [exact H1|]. split; [exact H2 | exact H3].
Defined.

(** In text mode the run does not depend on the URL field or on what the
    web would answer. *)
Theorem text_mode_ignores_web (w : world) (f : string -> reply page)
    (field : string) :
  radio (ui w) = TextQuery ->
  run_app (with_web w f field) = run_app w.
Proof.
  intros Hmode.
  assert (Hi : input_events (with_web w f field) = input_events w).
  { unfold input_events. simpl. now rewrite Hmode. }
  assert (Hrec : recommendation_events (with_web w f field)
                 = recommendation_events w).
  { unfold recommendation_events, asks, answer, query_text, query_of,
      slider_value. simpl. now rewrite Hmode. }
  rewrite !run_app_phases, Hi, Hrec. reflexivity.
Qed.

Lemma text_mode_ignores_web_witness :
  run_app (with_web world_text (fun _ => empty_page) "https://example.com")
  = run_app world_text.
Proof.
  apply (text_mode_ignores_web world_text (fun _ => empty_page)
           "https://example.com").
  reflexivity.
Defined.

(** In URL mode a page is fetched, once, exactly when the button is pressed
    and the URL is not empty; the request is made exactly when, moreover,
    the extracted text is not empty; the query sent is the text shown as
    extracted; and the query field plays no part. *)
Theorem url_mode_request (w : world) :
  radio (ui w) = JobDescriptionURL ->
  reaches_inputs w = true ->
  count is_fetch (events w)
  = (if button (ui w) && Py.truthy (text_input (ui w)) then 1 else 0)%nat
  /\ requests w
     = button (ui w) && Py.truthy (text_input (ui w))
       && Py.truthy (scraped (fetch w (text_input (ui w))))
  /\ (forall target q m st,
         In (EvPost target q m st) (events w) ->
         q = scraped (fetch w (text_input (ui w)))
         /\ In (StTextArea "Extracted Job Description" q) (events w))
  /\ (forall text, run_app (with_text w text) = run_app w).
Proof.
  intros Hmode Hr.
  split; [|split; [|split]].
  - rewrite (count_fetch_events w Hr). unfold input_events. rewrite Hmode.
    destruct (button (ui w) && Py.truthy (text_input (ui w))); reflexivity.
  - rewrite requests_iff, Hr. unfold asks, query_of. rewrite Hmode.
    destruct (button (ui w)); [|reflexivity].
    destruct (Py.truthy (text_input (ui w))); reflexivity.
  - intros target q m st Hin.
    destruct (post_in_events w _ Hin eq_refl) as (_ & Ha & Heq).
    injection Heq as _ -> _ _.
    unfold asks, query_of in Ha. unfold query_text, query_of.
    rewrite Hmode in *.
    destruct (button (ui w) && Py.truthy (text_input (ui w))) eqn:Hb.
    2: { now rewrite andb_false_r in Ha. }
    split; [reflexivity|].
    apply reaches_inputs_split in Hr as [Hk Hh].
    rewrite events_phases, Hk, Hh.
    apply in_or_app; right. right. apply in_or_app; left.
    unfold input_events. rewrite Hmode, Hb. right; left; reflexivity.
  - intros text.
    assert (Hi : input_events (with_text w text) = input_events w).
    { unfold input_events. simpl. now rewrite Hmode. }
    assert (Hrec : recommendation_events (with_text w text)
                   = recommendation_events w).
    { unfold recommendation_events, asks, answer, query_text, query_of,
        slider_value. simpl. now rewrite Hmode. }
    rewrite !run_app_phases, Hi, Hrec. reflexivity.
Qed.

Lemma url_mode_request_witness :
  count is_fetch (events world_url) = 1%nat
  /\ requests (with_page world_url empty_page) = false
  /\ requests (with_page world_url not_found_page) = true.
Proof.
  destruct (url_mode_request world_url eq_refl eq_refl) as (H1 & _).
  destruct (url_mode_request (with_page world_url empty_page)
              eq_refl eq_refl) as (_ & H2 & _).
  destruct (url_mode_request (with_page world_url not_found_page)
              eq_refl eq_refl) as (_ & H3 & _).
  split; [exact H1|]. split; [exact H2 | exact H3].
Defined.

(** When the button is not pressed, or the field of the chosen mode is
    empty, the run is the health section followed by the header and the
    footer: nothing is fetched and nothing is sent. *)
Theorem idle_page (w : world) :
  reaches_inputs w = true ->
  button (ui w) = false
  \/ (radio (ui w) = TextQuery /\ text_area (ui w) = "")
  \/ (radio (ui w) = JobDescriptionURL /\ text_input (ui w) = "") ->
  events w = health_events w ++ [StMarkdown MainHeader; StMarkdown Rule;
                                 StMarkdown Footer].
Proof.
  intros Hr Hidle. apply reaches_inputs_split in Hr as [Hk Hh].
  rewrite events_phases, Hk, Hh. f_equal. f_equal.
  unfold input_events, recommendation_events, asks, query_of.
  destruct Hidle as [Hb | [[Hm Ht] | [Hm Ht]]].
  - rewrite Hb. destruct (radio (ui w)); reflexivity.
  - rewrite Hm, Ht. cbn. now rewrite andb_false_r.
  - rewrite Hm, Ht. cbn. now rewrite !andb_false_r.
Qed.

Lemma idle_page_witness :
  events world_idle
  = [EvGet health_url None (Some 200); StMarkdown MainHeader;
     StMarkdown Rule; StMarkdown Footer].
Proof.
  rewrite (idle_page world_idle eq_refl (or_introl eq_refl)).
  reflexivity.
Defined.

(** The scraper does not look at the status of the page it fetched: what a
    run shows and what it sends are the same for every status code. *)
Theorem fetched_status_is_ignored (w : world) (c1 c2 : Z) (soup : page) :
  rendered (with_page w (Response c1 soup))
  = rendered (with_page w (Response c2 soup))
  /\ List.filter is_post (events (with_page w (Response c1 soup)))
     = List.filter is_post (events (with_page w (Response c2 soup))).
Proof.
  unfold rendered. rewrite !events_phases.
  change (key_present (with_page w (Response c1 soup))) with (key_present w).
  change (key_present (with_page w (Response c2 soup))) with (key_present w).
  change (healthy_after (with_page w (Response c1 soup)))
    with (healthy_after w).
  change (healthy_after (with_page w (Response c2 soup)))
    with (healthy_after w).
  change (health_events (with_page w (Response c1 soup)))
    with (health_events w).
  change (health_events (with_page w (Response c2 soup)))
    with (health_events w).
  change (recommendation_events (with_page w (Response c1 soup)))
    with (recommendation_events (with_page w (Response c2 soup))).
  destruct (key_present w); [|split; reflexivity].
  destruct (healthy_after w); [|split; reflexivity].
  rewrite !filter_app. cbn [List.filter is_output is_post].
  rewrite !filter_app.
  assert (Hin : forall p, (forall t c, p (EvGet t (Some 10) c) = false) ->
            List.filter p (input_events (with_page w (Response c1 soup)))
            = List.filter p (input_events (with_page w (Response c2 soup)))).
  { intros p Hp. unfold input_events. simpl.
    destruct (radio (ui w)); [reflexivity|].
    destruct (button (ui w) && Py.truthy (text_input (ui w)));
      [|reflexivity].
    cbn [List.filter]. now rewrite !Hp. }
  rewrite (Hin is_output), (Hin is_post) by reflexivity.
  split; reflexivity.
Qed.

(** ** The footer *)

Lemma existsb_recommendation_events (p : event -> bool) (w : world) :
  (forall msg, p (StError msg) = false) ->
  (forall l, existsb p (result_events l) = false) ->
  existsb p (recommendation_events w)
  = if asks w
    then p (EvPost recommend_url (query_text w) (slider_value w)
                   (status_of (answer w)))
         || match results_of (answer w) with
            | [] => p (StWarning no_results_warning)
            | _ :: _ => existsb p footer_events
            end
    else existsb p footer_events.
Proof.
  intros Herr Hres. unfold recommendation_events.
  destruct (asks w); [|reflexivity].
  cbn [existsb]. rewrite existsb_app. f_equal.
  assert (He : existsb p (errors_of (answer w)) = false).
  { destruct (answer w) as [code [e | l] | e]; simpl;
      try destruct (code =? 200); simpl; rewrite ?Herr; reflexivity. }
  rewrite He. cbn [orb].
  destruct (results_of (answer w)).
  - cbn. now rewrite orb_false_r.
  - now rewrite existsb_app, Hres.
Qed.

Lemma result_events_existsb (p : event -> bool) (l : list assessment) :
  (forall e, p e = true -> shows_recommendation e = false) ->
  existsb p (result_events l) = false.
Proof.
  intros Hp. destruct (existsb p (result_events l)) eqn:He; [|reflexivity].
  apply existsb_exists in He as (e & Hin & He).
  apply Hp in He. unfold result_events, cards_of in Hin. cbn [app] in Hin.
  destruct Hin as [<- | [<- | [<- | [<- | Hin]]]]; try discriminate.
  apply in_app_or in Hin as [Hin | [<- | []]]; [|discriminate].
  apply in_map_iff in Hin as (ia & <- & _). discriminate.
Qed.

Lemma health_events_existsb (p : event -> bool) (w : world) :
  (forall t c, p (EvGet t None c) = false) ->
  (forall s b, p (EvPopen s b) = false) ->
  (forall n, p (EvSleep n) = false) ->
  (forall msg, p (StInfo msg) = false) ->
  (forall msg, p (StError msg) = false) ->
  existsb p (health_events w) = false.
Proof.
  intros Hget Hpopen Hsleep Hinfo Herr.
  unfold health_events, start_events, probe_event.
  destruct (ok_reply (health w 0%nat)); cbn [existsb];
    rewrite ?Hget, ?Hinfo; [reflexivity|].
  rewrite existsb_app.
  destruct (popen w), (ok_reply (health w 1%nat)); cbn [existsb];
    rewrite ?Hget, ?Hpopen, ?Hsleep, ?Herr; reflexivity.
Qed.

Lemma input_events_existsb (p : event -> bool) (w : world) :
  (forall t o c, p (EvGet t o c) = false) ->
  (forall l v, p (StTextArea l v) = false) ->
  existsb p (input_events w) = false.
Proof.
  intros Hget Htext. unfold input_events.
  destruct (radio (ui w)); [reflexivity|].
  destruct (button (ui w) && Py.truthy (text_input (ui w)));
    cbn [existsb]; rewrite ?Hget, ?Htext; reflexivity.
Qed.

(** A run that gets to the inputs ends either with the footer or with the
    warning for an empty result, never with both: the [return] after the
    warning leaves the footer out. *)
Theorem footer_or_refine_warning (w : world) :
  reaches_inputs w = true ->
  existsb is_footer (events w)
  = negb (existsb is_refine_warning (events w))
  /\ existsb is_refine_warning (events w)
     = requests w && match results_of (answer w) with
                     | [] => true
                     | _ :: _ => false
                     end.
Proof.
  intros Hr. rewrite requests_iff, Hr. cbn [andb].
  apply reaches_inputs_split in Hr as [Hk Hh].
  rewrite events_phases, Hk, Hh.
  rewrite !existsb_app. cbn [existsb is_footer is_refine_warning orb].
  rewrite !existsb_app.
  rewrite !health_events_existsb, !input_events_existsb by reflexivity.
  rewrite !existsb_recommendation_events
    by (try reflexivity; intros l; apply result_events_existsb;
        intros e; destruct e as [| | | | | | | [| | |] | | | |];
        simpl; congruence).
  cbn [is_footer is_refine_warning orb].
  rewrite String.eqb_refl.
  destruct (asks w); [|split; reflexivity].
  destruct (results_of (answer w)); split; reflexivity.
Qed.

Lemma footer_or_refine_warning_witness :
  existsb is_footer (events world_text) = true
  /\ existsb is_footer (events (with_reply world_text empty_success)) = false.
Proof.
  destruct (footer_or_refine_warning world_text eq_refl) as [H1 H1'].
  destruct (footer_or_refine_warning (with_reply world_text empty_success)
              eq_refl) as [H2 H2'].
  rewrite H1, H1', H2, H2'. split; reflexivity.
Defined.

(** ** Starting the backend *)

(** When the process cannot be started, the error is shown, the script
    does not wait, and the health endpoint is probed again all the same:
    the run goes on exactly when that probe succeeds. *)
Theorem failed_start_is_reported (w : world) (e : string) :
  key_present w = true ->
  ok_reply (health w 0%nat) = false ->
  popen w = Some e ->
  (exists rest,
      events w
      = [probe_event w 0%nat;
         StInfo "Starting backend AI service...";
         EvPopen "api.py" false;
         StError ("Failed to start API: " ++ e)%string;
         probe_event w 1%nat] ++ rest)
  /\ count is_sleep (events w) = 0%nat
  /\ fst (run_app w)
     = if ok_reply (health w 1%nat) then Normal tt else Stopped.
Proof.
  intros Hk H0 Hp. split; [|split].
  - rewrite events_phases, Hk. unfold health_events, start_events.
    rewrite H0, Hp. cbn [app]. eexists. reflexivity.
  - rewrite events_phases, Hk, count_app.
    assert (Hh : count is_sleep (health_events w) = 0%nat).
    { unfold health_events, start_events. rewrite H0, Hp.
      destruct (ok_reply (health w 1%nat)); reflexivity. }
    rewrite Hh. destruct (healthy_after w); [|reflexivity].
    change (StMarkdown MainHeader :: ?l) with ([StMarkdown MainHeader] ++ l).
    rewrite !count_app.
    rewrite (count_recommendation_events is_sleep w)
      by (intros x; destruct x; simpl; congruence).
    assert (Hi : count is_sleep (input_events w) = 0%nat).
    { unfold input_events. destruct (radio (ui w)); [reflexivity|].
      destruct (button (ui w) && Py.truthy (text_input (ui w)));
        reflexivity. }
    rewrite Hi. destruct (asks w); reflexivity.
  - rewrite outcome_phases. unfold reaches_inputs. now rewrite Hk, H0.
Qed.

Lemma failed_start_is_reported_witness :
  In (StError "Failed to start API: No such file or directory")
     (events world_nostart)
  /\ fst (run_app world_nostart) = Normal tt.
Proof.
  destruct (failed_start_is_reported world_nostart
              "No such file or directory" eq_refl eq_refl eq_refl)
    as ((rest & Hev) & _ & Hout).
  split; [|exact Hout].
  rewrite Hev. do 3 right. left. reflexivity.
Defined.

(** ** The results section *)

(** Output that presents recommendations comes from the results section
    of a run that asked and got a non-empty list. *)
Lemma shown_in_events (w : world) (e : event) :
  In e (events w) -> shows_recommendation e = true ->
  requests w = true
  /\ results_of (answer w) <> []
  /\ In e (result_events (results_of (answer w))).
Proof.
  intros Hin He. rewrite requests_iff. unfold reaches_inputs.
  fold (healthy_after w). rewrite events_phases in Hin.
  destruct (key_present w).
  2: { destruct Hin as [<- | []]; discriminate. }
  apply in_app_or in Hin as [Hin | Hin].
  { now apply (existsb_false_not_in _ _ _ (health_events_shows_none w) He)
      in Hin. }
  destruct (healthy_after w); [|destruct Hin].
  destruct Hin as [<- | Hin]; [discriminate|].
  apply in_app_or in Hin as [Hin | Hin].
  { now apply (existsb_false_not_in _ _ _ (input_events_shows_none w) He)
      in Hin. }
  unfold recommendation_events in Hin.
  destruct (asks w).
  2: { destruct Hin as [<- | [<- | []]]; discriminate. }
  split; [reflexivity|].
  destruct Hin as [<- | Hin]; [discriminate|].
  apply in_app_or in Hin as [Hin | Hin].
  { exfalso. destruct (answer w) as [code [x | l] | x]; simpl in Hin;
      try destruct (code =? 200); simpl in Hin;
      repeat (destruct Hin as [<- | Hin]; try discriminate); exact Hin. }
  destruct (results_of (answer w)) eqn:Hres.
  { destruct Hin as [<- | []]; discriminate. }
  split; [discriminate|].
  apply in_app_or in Hin as [Hin | Hin]; [exact Hin|].
  destruct Hin as [<- | [<- | []]]; discriminate.
Qed.

Lemma cards_in_app (t1 t2 : list event) :
  cards_in (t1 ++ t2) = cards_in t1 ++ cards_in t2.
Proof. unfold cards_in. apply flat_map_app. Qed.

Lemma cards_in_none (t : list event) :
  existsb shows_recommendation t = false -> cards_in t = [].
Proof.
  induction t as [|e t IH]; simpl; [reflexivity|].
  intros H; apply orb_false_iff in H as [He Ht].
  rewrite (IH Ht). destruct e; try reflexivity; discriminate.
Qed.

Lemma cards_in_cards (l : list (Z * assessment)) :
  cards_in (map (fun ia => StCard (render_card (fst ia) (snd ia))) l)
  = map (fun ia => render_card (fst ia) (snd ia)) l.
Proof. induction l as [|ia l IH]; simpl; [|rewrite IH]; reflexivity. Qed.

(** The cards of a run. *)
Lemma cards_in_events (w : world) :
  cards_in (events w)
  = if requests w
    then map (fun ia => render_card (fst ia) (snd ia))
             (enumerate_from 0 (results_of (answer w)))
    else [].
Proof.
  rewrite requests_iff. unfold reaches_inputs. fold (healthy_after w).
  rewrite events_phases.
  destruct (key_present w); [|reflexivity].
  rewrite cards_in_app, (cards_in_none _ (health_events_shows_none w)).
  destruct (healthy_after w); [|reflexivity].
  change (StMarkdown MainHeader :: ?l) with ([StMarkdown MainHeader] ++ l).
  rewrite !cards_in_app, (cards_in_none _ (input_events_shows_none w)).
  unfold recommendation_events. destruct (asks w); [|reflexivity].
  change (EvPost ?a ?b ?c ?d :: ?l) with ([EvPost a b c d] ++ l).
  rewrite !cards_in_app.
  assert (He : cards_in (errors_of (answer w)) = []).
  { destruct (answer w) as [code [x | l] | x]; simpl;
      try destruct (code =? 200); reflexivity. }
  rewrite He. destruct (results_of (answer w)) as [|a l]; [reflexivity|].
  unfold result_events, cards_of. rewrite !cards_in_app, cards_in_cards.
  cbn [app cards_in flat_map footer_events]. now rewrite !app_nil_r.
Qed.

Lemma enumerate_from_fst {A} (i : Z) (l : list A) :
  map fst (enumerate_from i l)
  = map (fun k => i + Z.of_nat k) (seq 0 (length l)).
Proof.
  revert i; induction l as [|a l IH]; intros i; [reflexivity|].
  cbn [enumerate_from map length seq fst]. f_equal; [lia|].
  rewrite IH, <- seq_shift, map_map. apply map_ext. intros k. lia.
Qed.

Lemma enumerate_from_snd {A} (i : Z) (l : list A) :
  map snd (enumerate_from i l) = l.
Proof.
  revert i; induction l as [|a l IH]; intros i; [reflexivity|].
  cbn [enumerate_from map snd]. now rewrite IH.
Qed.

(** The cards of a run are numbered 1, 2, ... without gaps, and there is
    one for each result the service returned, in the order returned, with
    its link and its test types. *)
Theorem cards_numbered_in_order (w : world) :
  map number (cards_in (events w))
  = map Z.of_nat (seq 1 (length (cards_in (events w))))
  /\ (requests w = true ->
      map link (cards_in (events w)) = map url (results_of (answer w))
      /\ map badges (cards_in (events w))
         = map test_type (results_of (answer w))).
Proof.
  rewrite cards_in_events.
  destruct (requests w); [|split; [reflexivity | discriminate]].
  rewrite !map_map. cbn [number link badges render_card].
  split; [|intros _; split].
  - rewrite length_map.
    rewrite <- (map_map fst (fun i => i + 1)), enumerate_from_fst.
    assert (Hlen : length (enumerate_from 0 (results_of (answer w)))
                   = length (results_of (answer w))).
    { rewrite <- (length_map snd). now rewrite enumerate_from_snd. }
    rewrite Hlen, <- seq_shift, !map_map. apply map_ext. intros k. lia.
  - rewrite <- (map_map snd url). now rewrite enumerate_from_snd.
  - rewrite <- (map_map snd test_type). now rewrite enumerate_from_snd.
Qed.

Lemma cards_numbered_in_order_witness :
  map number (cards_in (events world_text)) = [1; 2]
  /\ map link (cards_in (events world_text))
     = ["https://www.shl.com/java"; "https://www.shl.com/teamwork"].
Proof.
  destruct (cards_numbered_in_order world_text) as [Hn Hl].
  destruct (Hl eq_refl) as [Hlink _].
  split; [rewrite Hn | rewrite Hlink]; reflexivity.
Defined.

(** The metrics of a run agree with its cards: the first is the number of
    cards, the second the number of distinct test types on them. *)
Theorem summary_agrees_with_cards (w : world) :
  (forall n, In (StMetric "Recommendations" n) (events w) ->
             n = MInt (Z.of_nat (length (cards_in (events w)))))
  /\ (forall n, In (StMetric "Unique Test Types" n) (events w) ->
        n = MInt (Z.of_nat (length (nodup string_dec
               (concat (map badges (cards_in (events w)))))))).
Proof.
  assert (Hcards : requests w = true ->
            length (cards_in (events w)) = length (results_of (answer w))
            /\ concat (map badges (cards_in (events w)))
               = test_types_of (results_of (answer w))).
  { intros Hreq. rewrite cards_in_events, Hreq. split.
    - rewrite length_map.
      rewrite <- (length_map snd). now rewrite enumerate_from_snd.
    - rewrite map_map. cbn [badges render_card].
      rewrite <- (map_map snd test_type), enumerate_from_snd.
      unfold test_types_of. now rewrite flat_map_concat_map. }
  split.
  - intros n Hin.
    destruct (shown_in_events w _ Hin eq_refl) as (Hreq & _ & Hres).
    destruct (Hcards Hreq) as [-> _].
    unfold result_events, cards_of in Hres. cbn [app] in Hres.
    destruct Hres as [H | [H | [H | [H | H]]]]; try discriminate.
    + now injection H.
    + apply in_app_or in H as [H | [H | []]]; [|discriminate].
      apply in_map_iff in H as (ia & H & _). discriminate.
  - intros n Hin.
    destruct (shown_in_events w _ Hin eq_refl) as (Hreq & _ & Hres).
    destruct (Hcards Hreq) as [_ ->].
    unfold result_events, cards_of in Hres. cbn [app] in Hres.
    destruct Hres as [H | [H | [H | [H | H]]]]; try discriminate.
    + now injection H.
    + apply in_app_or in H as [H | [H | []]]; [|discriminate].
      apply in_map_iff in H as (ia & H & _). discriminate.
Qed.

Lemma summary_agrees_with_cards_witness :
  MInt 2 = MInt (Z.of_nat (length (cards_in (events world_text))))
  /\ MInt 2
     = MInt (Z.of_nat (length (nodup string_dec
               (concat (map badges (cards_in (events world_text))))))).
Proof.
  destruct (summary_agrees_with_cards world_text) as (Hn & Hu).
  split.
  - apply Hn. vm_compute. do 3 right. left. reflexivity.
  - apply Hu. vm_compute. do 4 right. left. reflexivity.
Defined.

(** ** The average duration *)

Lemma sum_bounds (l : list Z) (lo hi : Z) :
  Forall (fun d => lo <= d <= hi) l ->
  Z.of_nat (length l) * lo <= fold_right Z.add 0 l
  <= Z.of_nat (length l) * hi.
Proof.
  induction 1 as [|d l Hd _ IH]; [simpl; lia|].
  cbn [fold_right length]. rewrite Nat2Z.inj_succ. lia.
Qed.

(** The truncated mean of a non-empty list lies between any two bounds of
    its elements. *)
Lemma int_mean_bounds (l : list Z) (lo hi : Z) :
  l <> [] -> Forall (fun d => lo <= d <= hi) l ->
  lo <= Py.int_mean l <= hi.
Proof.
  intros Hne Hall. pose proof (sum_bounds l lo hi Hall) as Hs.
  unfold Py.int_mean.
  set (n := Z.of_nat (length l)) in *.
  set (s := fold_right Z.add 0 l) in *.
  assert (Hn : 0 < n) by (destruct l; [congruence | subst n; simpl; lia]).
  pose proof (Z.quot_rem' s n) as Hqr.
  pose proof (Z.rem_bound_abs s n ltac:(lia)) as Hr.
  assert (Hr' : - n < Z.rem s n < n) by lia.
  split; nia.
Qed.

Lemma durations_of_in (results : list assessment) (d : Z) :
  In d (durations_of results) ->
  d <> 0 /\ exists r, In r results /\ duration r = Some d.
Proof.
  unfold durations_of. intros H. apply in_flat_map in H as (r & Hr & Hd).
  destruct (duration r) as [d'|] eqn:Hdur; [|destruct Hd].
  unfold Py.truthy_int in Hd. destruct (d' =? 0) eqn:Hz; simpl in Hd.
  - destruct Hd.
  - destruct Hd as [<- | []]. apply Z.eqb_neq in Hz. eauto.
Qed.



(** A duration of 0 is read like an absent one: the record is left out of
    the mean, and results whose durations are all absent or 0 give "N/A".
    So for durations that are not negative the metric never shows 0. *)
Theorem zero_duration_counts_as_absent (results : list assessment) :
  (forall l1 a l2, duration a = Some 0 ->
      durations_of (l1 ++ a :: l2) = durations_of (l1 ++ l2))
  /\ (Forall (fun r => duration r = None \/ duration r = Some 0) results ->
      avg_duration_metric (durations_of results) = MText "N/A")
  /\ (Forall (fun r => forall d, duration r = Some d -> 0 <= d) results ->
      forall m, avg_duration_metric (durations_of results) = MInt m ->
                1 <= m).
Proof.
  split; [|split].
  - intros l1 a l2 Ha. rewrite !durations_of_app. f_equal.
    unfold durations_of. cbn [flat_map]. now rewrite Ha.
  - intros Hall.
    assert (Hd : durations_of results = []).
    { induction Hall as [|r l Hr _ IH]; [reflexivity|].
      unfold durations_of in *. cbn [flat_map]. rewrite IH.
      destruct Hr as [-> | ->]; reflexivity. }
    now rewrite Hd.
  - intros Hall m Hm. unfold avg_duration_metric in Hm.
    destruct (durations_of results) as [|d ds] eqn:Hds; [discriminate|].
    injection Hm as <-.
    set (top := Z.max 1 (fold_right Z.max 1 (d :: ds))).
    apply (int_mean_bounds (d :: ds) 1 top); [discriminate|].
    apply Forall_forall. intros x Hx. split.
    + rewrite <- Hds in Hx. apply durations_of_in in Hx as (Hnz & r & Hr & Hd).
      rewrite Forall_forall in Hall. specialize (Hall r Hr x Hd). lia.
    + subst top. clear - Hx. induction (d :: ds) as [|y l IH];
        [destruct Hx|]. cbn [fold_right]. destruct Hx as [-> | Hx]; [lia|].
      specialize (IH Hx). lia.
Qed.

Lemma zero_duration_counts_as_absent_witness :
  avg_duration_metric (durations_of [zero_test; teamwork_test]) = MText "N/A"
  /\ durations_of [zero_test; java_test] = durations_of [java_test]
  /\ 1 <= 30.
Proof.
  destruct (zero_duration_counts_as_absent [zero_test; teamwork_test])
    as (_ & Hna & _).
  destruct (zero_duration_counts_as_absent [java_test])
    as (Hskip & _ & Hpos).
  split; [|split].
  - apply Hna. constructor; [right; reflexivity|].
    constructor; [left; reflexivity|]. constructor.
  - exact (Hskip [] zero_test [java_test] eq_refl).
  - apply Hpos; [|reflexivity].
    repeat constructor. intros d [= <-]. lia.
Defined.

(** ** The headline *)

(** The headline of a card is the description up to its first '.': it
    holds no '.', and the description is the headline itself or the
    headline followed by a '.' and more. *)
Theorem headline_is_up_to_first_dot (i : Z) (a : assessment) :
  contains "." (headline (render_card i a)) = false
  /\ exists rest,
       description a = (headline (render_card i a) ++ rest)%string
       /\ (rest = "" \/ exists more, rest = String "." more).
Proof.
  cbn [headline render_card].
  pose proof (join_split "." (description a)) as Hj.
  pose proof (split_free "." (description a)) as Hfree.
  unfold Py.join in Hj.
  destruct (Py.split "." (description a)) as [|h [|seg rest]].
  - simpl in *. split; [reflexivity|]. exists "". rewrite <- Hj. auto.
  - inversion Hfree; subst. simpl in *. split; [assumption|].
    exists "". split; [|auto]. rewrite <- Hj.
    clear. induction h; simpl; congruence.
  - inversion Hfree; subst. cbn [hd]. split; [assumption|].
    rewrite concat_cons in Hj.
    exists ("." ++ String.concat "." (seg :: rest))%string.
    split; [now rewrite Hj|]. right. eexists. reflexivity.
Qed.

(** ** What the scraper extracts *)

(** When the fetched page has a job-description block, its paragraphs play
    no part in the run; when it has none, the query sent in URL mode is the
    paragraphs joined by single spaces. *)
Theorem scraper_prefers_description_block (w : world) (code : Z) :
  (forall content ps1 ps2,
      run_app (with_page w (Response code {| job_div := Some content;
                                              paragraphs := ps1 |}))
      = run_app (with_page w (Response code {| job_div := Some content;
                                                paragraphs := ps2 |})))
  /\ (forall ps target q m st,
         radio (ui w) = JobDescriptionURL ->
         In (EvPost target q m st)
            (events (with_page w (Response code {| job_div := None;
                                                    paragraphs := ps |}))) ->
         q = Py.join " " ps).
Proof.
  split.
  - intros content ps1 ps2. rewrite !run_app_phases. reflexivity.
  - intros ps target q m st Hmode Hin.
    destruct (post_in_events _ _ Hin eq_refl) as (_ & Ha & Heq).
    injection Heq as _ -> _ _.
    unfold asks, query_text, query_of in *. simpl in *.
    rewrite Hmode in *.
    destruct (button (ui w) && Py.truthy (text_input (ui w)));
      [reflexivity|].
    now rewrite andb_false_r in Ha.
Qed.

Lemma scraper_prefers_description_block_witness :
  In (EvPost recommend_url "Page not found Try again" 15 (Some 200))
     (events (with_page world_url not_found_page))
  /\ "Page not found Try again" = Py.join " " ["Page not found"; "Try again"].
Proof.
  assert (Hin : In (EvPost recommend_url "Page not found Try again" 15
                           (Some 200))
                   (events (with_page world_url not_found_page))).
  { vm_compute. do 8 right. left. reflexivity. }
  split; [exact Hin|].
  exact (proj2 (scraper_prefers_description_block world_url 404)
               _ _ _ _ _ eq_refl Hin).
Defined.
